(** * RBAC demo service (rbac-project/server/server.js)

    A shallow embedding of the Express server: the permission matrix, the
    [authorize] middleware, the in-memory user and post tables and the route
    handlers that mutate them.  Handlers are functions from the current
    instant and the tables to the new tables, the HTTP response and the
    lines written to the console.

    What the embedding takes as given:
    - the [Authorization] header arrives already classified (no bearer token,
      a token [jwt.verify] rejects, a token that verifies to a payload), and
      [bcrypt] hashes are symbolic;
    - [parseInt(req.params.id)] arrives as an integer or [NaN], and
      [new Date()] as the instant handed to the handler;
    - [PERMISSIONS] and its rows are finite maps of the keys written in the
      object literal: a role or resource named like a member inherited from
      [Object.prototype] ([INHERITED]) is outside what the maps describe, and
      the statements about arbitrary roles and resources leave those names
      out;
    - ids and roles are integers and strings, as the server itself produces
      them;
    - [POST /api/auth/login] reads the user table without writing it: it
      stands apart from the routes of [app], with [bcrypt.compareSync] as a
      parameter;
    - the client's [can] (client/src/App.jsx) is embedded beside the server
      to compare the two checks. *)

From Stdlib Require Import ZArith String Ascii List Decimal DecimalString.
From stdpp Require Import base tactics option list strings gmap.

Set Warnings "-clear-no-such-hyp".

Local Open Scope Z_scope.
Local Open Scope string_scope.

(** ** JavaScript values carried by a parsed JSON body *)

(** Numbers are restricted to integers; an object or array only matters
    through its truthiness, so its contents are left out. *)
Inductive value : Type :=
  | VUndefined
  | VNull
  | VBool (b : bool)
  | VNum (n : Z)
  | VStr (s : string)
  | VObject.

(** ToBoolean. *)
Definition truthy (v : value) : bool :=
  match v with
  | VUndefined | VNull => false
  | VBool b => b
  | VNum n => negb (Z.eqb n 0)
  | VStr s => negb (String.eqb s "")
  | VObject => true
  end.

(** [a || b] *)
Definition js_or (a b : value) : value := if truthy a then a else b.

(** [`${n}`] for an integer [n] below 10^21 in absolute value, where the
    template string prints every digit (from there on it prints an exponent;
    the ids the server issues count up from 1). *)
Definition number_to_string (n : Z) : string := NilZero.string_of_int (Z.to_int n).

(** ** Permission matrix *)

(** Role to resource key to granted actions; the [self_] keys hold the grants
    that are conditional on owning the resource. *)
Definition PERMISSIONS : gmap string (gmap string (list string)) :=
  <["ADMIN" :=
      <["users" := ["create"; "read"; "update"; "delete"] ]>
     (<["posts" := ["create"; "read"; "update"; "delete"] ]>
     (<["admin" := ["manage_roles"] ]> ∅))]>
  (<["EDITOR" :=
      <["posts" := ["create"; "read"] ]>
     (<["self_posts" := ["update"; "delete"] ]>
     (<["users" := ["read"] ]> ∅))]>
  (<["VIEWER" :=
      <["posts" := ["read"] ]> ∅]> ∅)).

(** [rolePermissions[resource] && rolePermissions[resource].includes(action)]
    for a key of the row or a key no object has; see [INHERITED] for the
    other keys. *)
Definition grants (rolePermissions : gmap string (list string))
    (resource action : string) : bool :=
  match rolePermissions !! resource with
  | Some actions => bool_decide (action ∈ actions)
  | None => false
  end.

(** The names every object literal inherits from [Object.prototype].  Under
    one of them [PERMISSIONS[role]] or [rolePermissions[resource]] reads the
    inherited member (a function, or the prototype itself) where the maps
    above have no key. *)
Definition INHERITED : list string :=
  [ "constructor"; "__proto__"; "hasOwnProperty"; "isPrototypeOf";
    "propertyIsEnumerable"; "toLocaleString"; "toString"; "valueOf";
    "__defineGetter__"; "__defineSetter__"; "__lookupGetter__";
    "__lookupSetter__" ].

(** The resources the routes hand to [authorize]. *)
Definition RESOURCES : list string := ["posts"; "users"; "admin"].

(** ** Tables, identities and requests *)

(** [bcrypt.hashSync(password, 10)]: the hash is kept symbolic. *)
Inductive hash : Type := Bcrypt (plain : string).

Definition hashPassword (password : string) : hash := Bcrypt password.

Module User.
Record t : Type := mk
  { id : Z; username : string; password : hash; role : string; email : value }.

(** [u.role = newRole] *)
Definition set_role (newRole : string) (u : t) : t :=
  mk (id u) (username u) (password u) newRole (email u).
End User.

Module Post.
(** [createdAt] and [updatedAt] hold the instant of the [new Date()];
    [updatedAt] is absent until the first update. *)
Record t : Type := mk
  { id : Z; title : value; content : value; authorId : Z; author : string;
    createdAt : Z; updatedAt : option Z }.
End Post.

(** The payload of a verified token, attached to the request as [req.user]. *)
Module Identity.
Record t : Type := mk { id : Z; role : string; username : string }.
End Identity.

(** The module-level [let] bindings of the server. *)
Module DB.
Record t : Type := mk
  { users : list User.t; posts : list Post.t; nextUserId : Z; nextPostId : Z }.

Definition with_users (us : list User.t) (db : t) : t :=
  mk us (posts db) (nextUserId db) (nextPostId db).
Definition with_posts (ps : list Post.t) (db : t) : t :=
  mk (users db) ps (nextUserId db) (nextPostId db).
End DB.

(** The fields the handlers read from [req.body].  [username] and [password]
    are strings when present; the other fields are arbitrary JSON values.
    A body whose user name or password is a number, an array or an object is
    outside the embedding: the statements about names and passwords are
    about strings. *)
Module Body.
Record t : Type := mk
  { username : option string; password : option string; email : value;
    role : value; title : value; content : value; newRole : value }.

Definition empty : t :=
  mk None None VUndefined VUndefined VUndefined VUndefined VUndefined.
End Body.

(** What [authMiddleware] finds in the [Authorization] header: no bearer
    token, a token that [jwt.verify] rejects with a message, or a token that
    verifies to a payload. *)
Inductive credentials : Type :=
  | NoBearer
  | BadToken (message : string)
  | Bearer (payload : Identity.t).

Module Request.
(** [params_id] is [parseInt(req.params.id)], [None] standing for [NaN]. *)
Record t : Type := mk
  { authorization : credentials; x_request_id : option string;
    params_id : option Z; body : Body.t }.
End Request.

(** ** Responses and console output *)

Inductive payload : Type :=
  | Text (s : string)
  | ErrorObj (error : string)
  | MessageObj (message : string)
  | PostObj (p : Post.t)
  | PostList (ps : list Post.t)
  | UserList (us : list (Z * string * string * value))
  | AuthObj (token : Identity.t) (role : string) (userId : Z) (username : string)
  | LoginObj (token : Identity.t) (role : string) (userId : Z) (username : string)
      (message : string).

Record response : Type := Response { status : Z; sent : payload }.

(** [res.send(x)] with the default status. *)
Definition send (x : payload) : response := Response 200 x.

(** The object stringified by the denial branch of [authorize]. *)
Record denial : Type := Denial
  { level : string; message : string; userId : Z; username : string;
    role : string; requiredPermission : string; timestamp : Z;
    correlationId : string }.

Inductive line : Type :=
  | Log (s : string)
  | Warn (s : string)
  | Error (d : denial).

Record result : Type := Result { tables : DB.t; res : response; console : list line }.

(** A route handler, or the rest of a middleware chain, once the request is
    fixed: it runs against the tables. *)
Definition handler : Type := DB.t → result.

(** Answer without touching the tables. *)
Definition reply (r : response) (out : list line) : handler :=
  λ db, Result db r out.

(** ** Array helpers *)

(** [xs.findIndex(f)], [None] standing for [-1]. *)
Fixpoint findIndex {A} (f : A → bool) (xs : list A) : option nat :=
  match xs with
  | [] => None
  | x :: xs' => if f x then Some 0%nat else S <$> findIndex f xs'
  end.

(** [n === m] where [m] may be [NaN]. *)
Definition strict_eq (n : Z) (m : option Z) : bool :=
  match m with
  | Some m' => Z.eqb n m'
  | None => false
  end.

(** [['ADMIN', 'EDITOR', 'VIEWER'].includes(v)] *)
Definition includes (xs : list string) (v : value) : bool :=
  match v with
  | VStr s => bool_decide (s ∈ xs)
  | _ => false
  end.

Definition ROLES : list string := ["ADMIN"; "EDITOR"; "VIEWER"].

(** [!s] for a string that may be missing. *)
Definition missing (s : option string) : bool :=
  match s with
  | Some s' => String.eqb s' ""
  | None => true
  end.

(** [`${n}`] for the result of [parseInt]. *)
Definition show_number (n : option Z) : string :=
  match n with
  | Some n' => number_to_string n'
  | None => "NaN"
  end.

(** A value that passed [includes] is a string. *)
Definition string_of (v : value) : string :=
  match v with
  | VStr s => s
  | _ => ""
  end.

(** ** Middleware *)

(** A middleware either answers the request itself or calls [next()], handing
    on what it attached to the request: the identity that [authMiddleware]
    stores in [req.user], the flag that [authorize] stores in
    [req.isOwnerCheckRequired]. *)
Inductive step (A : Type) : Type :=
  | Next (attached : A)
  | Respond (r : response) (out : list line).
Arguments Next {A} attached.
Arguments Respond {A} r out.

Definition authMiddleware (rq : Request.t) : step Identity.t :=
  match Request.authorization rq with
  | NoBearer =>
      Respond (Response 401 (ErrorObj "Access Denied. No token provided."))
        [Log "Authorization check failed: Missing or invalid header."]
  | BadToken m =>
      Respond (Response 400 (ErrorObj "Invalid token."))
        [Log ("JWT verification failed: " +:+ m)]
  | Bearer decoded => Next decoded
  end.

(** [authorize(resource, action, isOwnerCheck)(req, res, next)] for a request
    that [authMiddleware] let through.  The invalid-role branch is the one
    of a role that is no key of [PERMISSIONS]; a role named like an inherited
    member ([INHERITED]) is outside the embedding. *)
Definition authorize (resource action : string) (isOwnerCheck : bool)
    (now : Z) (rq : Request.t) (user : Identity.t) : step bool :=
  let role := Identity.role user in
  match PERMISSIONS !! role with
  | None =>
      Respond (Response 403 (ErrorObj "Forbidden. Invalid Role Configuration."))
        [Warn ("Attempted access by user " +:+ number_to_string (Identity.id user)
               +:+ " with invalid role: " +:+ role)]
  | Some rolePermissions =>
      let hasPermission := false in
      let hasPermission :=
        if grants rolePermissions resource action then true else hasPermission in
      let '(hasPermission, isOwnerCheckRequired) :=
        if isOwnerCheck then
          let selfResource := "self_" +:+ resource in
          if grants rolePermissions selfResource action
          then (true, true) else (hasPermission, false)
        else (hasPermission, false) in
      if hasPermission then Next isOwnerCheckRequired
      else
        Respond
          (Response 403
             (ErrorObj ("Forbidden. Role '" +:+ role +:+ "' cannot perform '"
                        +:+ action +:+ "' on '" +:+ resource +:+ "'.")))
          [Log ("Authorization Denial (403): User " +:+ Identity.username user
                +:+ " (Role: " +:+ role +:+ ") failed check for "
                +:+ resource +:+ ":" +:+ action);
           Error (Denial "error" "AuthorizationDenied" (Identity.id user)
                    (Identity.username user) role (resource +:+ ":" +:+ action) now
                    (if missing (Request.x_request_id rq) then "N/A"
                     else default "" (Request.x_request_id rq)))]
  end.

(** [app.METHOD(path, authMiddleware, authorize(resource, action, isOwnerCheck), h)]:
    the handler [h] runs only when both middlewares called [next()]. *)
Definition guarded (resource action : string) (isOwnerCheck : bool)
    (h : Z → Request.t → Identity.t → bool → handler)
    (now : Z) (rq : Request.t) : handler :=
  match authMiddleware rq with
  | Respond r out => reply r out
  | Next user =>
      match authorize resource action isOwnerCheck now rq user with
      | Respond r out => reply r out
      | Next isOwnerCheckRequired => h now rq user isOwnerCheckRequired
      end
  end.

(** An uncaught exception in a handler: Express answers 500. *)
Definition uncaught (what : string) : handler :=
  reply (Response 500 (Text what)) [].

(** ** Route handlers *)

(** [POST /api/auth/register] *)
Definition post_auth_register (rq : Request.t) : handler := λ db,
  let b := Request.body rq in
  match Body.username b, Body.password b with
  | Some username, Some password =>
      if String.eqb username "" || String.eqb password ""
      then reply (Response 400 (Text "Username and password are required.")) [] db
      else if existsb (λ u, String.eqb (User.username u) username) (DB.users db)
      then reply (Response 400 (Text "User already exists.")) [] db
      else
        let newUser :=
          User.mk (DB.nextUserId db) username (hashPassword password)
            (if includes ROLES (Body.role b) then string_of (Body.role b) else "VIEWER")
            (js_or (Body.email b) (VStr (username +:+ "@example.com"))) in
        let token :=
          Identity.mk (User.id newUser) (User.role newUser) (User.username newUser) in
        Result
          (DB.mk (DB.users db ++ [newUser])%list (DB.posts db)
             (DB.nextUserId db + 1) (DB.nextPostId db))
          (send (AuthObj token (User.role newUser) (User.id newUser)
                   (User.username newUser)))
          []
  | _, _ => reply (Response 400 (Text "Username and password are required.")) [] db
  end.

(** [POST /api/posts] *)
Definition post_posts (now : Z) (rq : Request.t) (user : Identity.t)
    (isOwnerCheckRequired : bool) : handler := λ db,
  let b := Request.body rq in
  let newPost :=
    Post.mk (DB.nextPostId db) (Body.title b) (Body.content b)
      (Identity.id user) (Identity.username user) now None in
  Result
    (DB.mk (DB.users db) (DB.posts db ++ [newPost])%list
       (DB.nextUserId db) (DB.nextPostId db + 1))
    (Response 201 (PostObj newPost))
    [].

(** [GET /api/posts]: every post, without its [updatedAt]. *)
Definition get_posts (now : Z) (rq : Request.t) (user : Identity.t)
    (isOwnerCheckRequired : bool) : handler := λ db,
  let filteredPosts := DB.posts db in
  reply
    (send (PostList
       (map (λ p, Post.mk (Post.id p) (Post.title p) (Post.content p)
                    (Post.authorId p) (Post.author p) (Post.createdAt p) None)
          filteredPosts)))
    [] db.

(** [PUT /api/posts/:id] *)
Definition put_posts_id (now : Z) (rq : Request.t) (user : Identity.t)
    (isOwnerCheckRequired : bool) : handler := λ db,
  let postId := Request.params_id rq in
  match findIndex (λ p, strict_eq (Post.id p) postId) (DB.posts db) with
  | None => reply (Response 404 (Text "Post not found.")) [] db
  | Some postIndex =>
      match DB.posts db !! postIndex with
      | None => uncaught "TypeError" db
      | Some post =>
          if (if isOwnerCheckRequired
              then negb (Z.eqb (Post.authorId post) (Identity.id user))
              else false)
          then
            reply
              (Response 403 (ErrorObj "Forbidden. You can only update your own posts."))
              [Log ("Authorization Denial (403): User " +:+ Identity.username user
                    +:+ " attempted to update post " +:+ show_number postId
                    +:+ " belonging to " +:+ number_to_string (Post.authorId post))]
              db
          else
            let updated :=
              Post.mk (Post.id post)
                (js_or (Body.title (Request.body rq)) (Post.title post))
                (js_or (Body.content (Request.body rq)) (Post.content post))
                (Post.authorId post) (Post.author post) (Post.createdAt post)
                (Some now) in
            Result (DB.with_posts (<[postIndex := updated]> (DB.posts db)) db)
              (send (PostObj updated)) []
      end
  end.

(** [DELETE /api/posts/:id] *)
Definition delete_posts_id (now : Z) (rq : Request.t) (user : Identity.t)
    (isOwnerCheckRequired : bool) : handler := λ db,
  let postId := Request.params_id rq in
  match findIndex (λ p, strict_eq (Post.id p) postId) (DB.posts db) with
  | None => reply (Response 404 (Text "Post not found.")) [] db
  | Some postIndex =>
      match DB.posts db !! postIndex with
      | None => uncaught "TypeError" db
      | Some post =>
          if isOwnerCheckRequired && negb (Z.eqb (Post.authorId post) (Identity.id user))
          then
            reply
              (Response 403 (ErrorObj "Forbidden. You can only delete your own posts."))
              [Log ("Authorization Denial (403): User " +:+ Identity.username user
                    +:+ " attempted to delete post " +:+ show_number postId
                    +:+ " belonging to " +:+ number_to_string (Post.authorId post))]
              db
          else
            Result (DB.with_posts (delete postIndex (DB.posts db)) db)
              (send (MessageObj "Post deleted successfully.")) []
      end
  end.

(** [GET /api/admin/users] *)
Definition get_admin_users (now : Z) (rq : Request.t) (user : Identity.t)
    (isOwnerCheckRequired : bool) : handler := λ db,
  reply
    (send (UserList
       (map (λ u, (User.id u, User.username u, User.role u, User.email u))
          (DB.users db))))
    [] db.

(** [PUT /api/admin/users/:id/role] *)
Definition put_admin_users_id_role (now : Z) (rq : Request.t) (user : Identity.t)
    (isOwnerCheckRequired : bool) : handler := λ db,
  let userId := Request.params_id rq in
  let newRole := Body.newRole (Request.body rq) in
  if negb (includes ROLES newRole)
  then reply (Response 400 (Text "Invalid role provided.")) [] db
  else
    match findIndex (λ u, strict_eq (User.id u) userId) (DB.users db) with
    | None => reply (Response 404 (Text "User not found.")) [] db
    | Some userIndex =>
        match DB.users db !! userIndex with
        | None => uncaught "TypeError" db
        | Some u =>
            let oldRole := User.role u in
            let u' := User.set_role (string_of newRole) u in
            Result (DB.with_users (<[userIndex := u']> (DB.users db)) db)
              (send (MessageObj ("Role updated to " +:+ string_of newRole
                                 +:+ " for user " +:+ User.username u' +:+ ".")))
              [Log ("[AUDIT] Role changed for User ID " +:+ show_number userId
                    +:+ " (" +:+ User.username u' +:+ ") by Admin ID "
                    +:+ number_to_string (Identity.id user)
                    +:+ ". Old Role: " +:+ oldRole
                    +:+ ", New Role: " +:+ string_of newRole)]
        end
    end.

(** ** The routes *)

(** The routes that write or that stand behind [authMiddleware] and
    [authorize].  The eighth route of the server, [POST /api/auth/login],
    takes no token and may throw: it is [post_auth_login] below and is not
    one of [route]. *)
Inductive route : Type :=
  | POST_auth_register
  | POST_posts
  | GET_posts
  | PUT_posts_id
  | DELETE_posts_id
  | GET_admin_users
  | PUT_admin_users_id_role.

Definition app (r : route) (now : Z) (rq : Request.t) : handler :=
  match r with
  | POST_auth_register => post_auth_register rq
  | POST_posts => guarded "posts" "create" false post_posts now rq
  | GET_posts => guarded "posts" "read" false get_posts now rq
  | PUT_posts_id => guarded "posts" "update" true put_posts_id now rq
  | DELETE_posts_id => guarded "posts" "delete" true delete_posts_id now rq
  | GET_admin_users => guarded "users" "read" false get_admin_users now rq
  | PUT_admin_users_id_role =>
      guarded "admin" "manage_roles" false put_admin_users_id_role now rq
  end.

(** ** Seed data *)

(** [users.find(u => u.username === name).id]; the seeded names are found. *)
Definition id_of (name : string) (us : list User.t) : Z :=
  from_option User.id 0 (List.find (λ u, String.eqb (User.username u) name) us).

Definition seedDatabase (now : Z) (db : DB.t) : DB.t :=
  let n := DB.nextUserId db in
  let users :=
    [ User.mk n "admin" (hashPassword "admin123") "ADMIN" (VStr "admin@example.com");
      User.mk (n + 1) "editor1" (hashPassword "editor123") "EDITOR"
        (VStr "editor1@example.com");
      User.mk (n + 2) "editor2" (hashPassword "editor123") "EDITOR"
        (VStr "editor2@example.com");
      User.mk (n + 3) "viewer" (hashPassword "viewer123") "VIEWER"
        (VStr "viewer@example.com") ] in
  let editor1Id := id_of "editor1" users in
  let editor2Id := id_of "editor2" users in
  let m := DB.nextPostId db in
  let posts :=
    [ Post.mk m (VStr "Admin Global News") (VStr "This is global content.")
        (id_of "admin" users) "admin" now None;
      Post.mk (m + 1) (VStr "Editor 1 Private Draft")
        (VStr "Content only Editor 1 can modify.") editor1Id "editor1" now None;
      Post.mk (m + 2) (VStr "Editor 2 Public Article")
        (VStr "A public facing article by Editor 2.") editor2Id "editor2" now None;
      Post.mk (m + 3) (VStr "General Info for Viewers")
        (VStr "Everyone can read this.") editor1Id "editor1" now None ] in
  DB.mk users posts (n + 4) (m + 4).

(** The tables when the server starts listening. *)
Definition initial (now : Z) : DB.t := seedDatabase now (DB.mk [] [] 1 1).

(** ** The decision function and the resolver as the specification words them *)

Module Spec.
Record verdict : Type := Verdict { allowed : bool; ownershipCheckRequired : bool }.

Definition recognized (role : string) : bool := bool_decide (role ∈ ROLES).

(** The PermissionMatrix as a table: one (role, resource key, action) entry
    for every action granted, in the order of the rows of the server's
    matrix. *)
Definition matrix : list (string * string * string) :=
  [ ("ADMIN", "users", "create"); ("ADMIN", "users", "read");
    ("ADMIN", "users", "update"); ("ADMIN", "users", "delete");
    ("ADMIN", "posts", "create"); ("ADMIN", "posts", "read");
    ("ADMIN", "posts", "update"); ("ADMIN", "posts", "delete");
    ("ADMIN", "admin", "manage_roles");
    ("EDITOR", "posts", "create"); ("EDITOR", "posts", "read");
    ("EDITOR", "self_posts", "update"); ("EDITOR", "self_posts", "delete");
    ("EDITOR", "users", "read");
    ("VIEWER", "posts", "read") ].

(** PermissionMatrix.allows: the grant under the unqualified resource key;
    false for an unknown role. *)
Definition allows (role resourceKind action : string) : bool :=
  bool_decide ((role, resourceKind, action) ∈ matrix).

(** PermissionMatrix.allowsSelfScoped: the grant under the ownership-conditional
    key of the resource. *)
Definition allowsSelfScoped (role resourceKind action : string) : bool :=
  bool_decide ((role, "self_" +:+ resourceKind, action) ∈ matrix).

(** AuthorizationGate.decide, steps 1 to 4. *)
Definition decide (role resourceKind action : string) (ownershipCapable : bool)
    : verdict :=
  if negb (recognized role) then Verdict false false
  else if allows role resourceKind action then Verdict true false
  else if ownershipCapable && allowsSelfScoped role resourceKind action
  then Verdict true true
  else Verdict false false.

(** OwnershipResolver.resolve. *)
Definition resolve (decision : verdict) (resourceOwnerId identityId : Z) : bool :=
  if negb (allowed decision) then false
  else if negb (ownershipCheckRequired decision) then allowed decision
  else Z.eqb resourceOwnerId identityId.
End Spec.

(** ** Vocabulary of the statements *)

(** No action is granted under both a resource key and its [self_] key. *)
Definition disjoint_grants (rolePermissions : gmap string (list string)) : Prop :=
  ∀ resource action,
    grants rolePermissions resource action = true →
    grants rolePermissions ("self_" +:+ resource) action = true → False.

(** The lookups of [authorize] read the matrix and no inherited member: the
    resource is one of the server's (no built-in object has a member named
    like it or like its [self_] key), or neither the role nor the resource is
    the name of an inherited member. *)
Definition reads_matrix (role resource : string) : Prop :=
  resource ∈ RESOURCES ∨ ((role ∉ INHERITED) ∧ (resource ∉ INHERITED)).

(** The decision a run of [authorize] amounts to: whether it called [next()],
    and the flag it left on the request. *)
Definition decision (s : step bool) : Spec.verdict :=
  match s with
  | Next isOwnerCheckRequired => Spec.Verdict true isOwnerCheckRequired
  | Respond _ _ => Spec.Verdict false false
  end.

(** The console line written for a role change. *)
Definition audit_line (l : line) : bool :=
  match l with
  | Log s => String.prefix "[AUDIT]" s
  | _ => false
  end.

(** The post a request names exists. *)
Definition post_exists (postId : option Z) (db : DB.t) : Prop :=
  ∃ p, p ∈ DB.posts db ∧ strict_eq (Post.id p) postId = true.

(** [posts.findIndex(p => p.id === postId)] for the id of the request. *)
Definition find_post (rq : Request.t) (db : DB.t) : option nat :=
  findIndex (λ p, strict_eq (Post.id p) (Request.params_id rq)) (DB.posts db).

(** A request against an existing post ends as the final verdict says: 200
    when permitted, 403 and untouched tables when not. *)
Definition settled (before : DB.t) (final : bool) (r : result) : Prop :=
  status (res r) = (if final then 200 else 403) ∧ (final = false → tables r = before).

(** The post the handlers pick exists and its author is not the caller. *)
Definition owned_by_another (rq : Request.t) (user : Identity.t) (db : DB.t) : Prop :=
  ∃ i post,
    find_post rq db = Some i ∧ DB.posts db !! i = Some post ∧
    Post.authorId post ≠ Identity.id user.

(** The post a request names: the first post of the table whose id is the
    id of the request. *)
Definition names_post (rq : Request.t) (db : DB.t) (post : Post.t) : Prop :=
  ∃ before after,
    DB.posts db = (before ++ post :: after)%list ∧
    Request.params_id rq = Some (Post.id post) ∧
    ∀ p, p ∈ before → Post.id p ≠ Post.id post.

(** [users.findIndex(u => u.id === userId)] for the id of the request. *)
Definition find_user (rq : Request.t) (db : DB.t) : option nat :=
  findIndex (λ u, strict_eq (User.id u) (Request.params_id rq)) (DB.users db).

(** Every stored role is one of the closed set. *)
Definition roles_valid (db : DB.t) : Prop :=
  Forall (λ u, User.role u ∈ ROLES) (DB.users db).

(** The request with its [role] field replaced by ['VIEWER']. *)
Definition as_viewer (rq : Request.t) : Request.t :=
  let b := Request.body rq in
  Request.mk (Request.authorization rq) (Request.x_request_id rq)
    (Request.params_id rq)
    (Body.mk (Body.username b) (Body.password b) (Body.email b) (VStr "VIEWER")
       (Body.title b) (Body.content b) (Body.newRole b)).

(** The object [PUT /api/posts/:id] stores in place of [post]. *)
Definition updated_post (now : Z) (b : Body.t) (post : Post.t) : Post.t :=
  Post.mk (Post.id post)
    (js_or (Body.title b) (Post.title post))
    (js_or (Body.content b) (Post.content post))
    (Post.authorId post) (Post.author post) (Post.createdAt post) (Some now).

(** ** Requests served one after the other *)

(** Node runs each of these handlers to completion before it takes the next
    request: the server is the fold of [app] over the requests in the order
    the event loop takes them. *)
Record arrival : Type := Arrival { target : route; instant : Z; request : Request.t }.

Fixpoint serve (arrivals : list arrival) (db : DB.t) : DB.t :=
  match arrivals with
  | [] => db
  | a :: rest => serve rest (tables (app (target a) (instant a) (request a) db))
  end.

(** What one request may do to the user stored at index [i]. *)
Definition slot_step (r : route) (rq : Request.t) (i : nat) (u : User.t) (db' : DB.t)
    : Prop :=
  ∃ u', DB.users db' !! i = Some u' ∧ User.id u' = User.id u ∧
        (User.role u' = User.role u ∨
         r = PUT_admin_users_id_role ∧
         Body.newRole (Request.body rq) = VStr (User.role u')).

(** ** Scenarios on the seeded tables *)

(** The identities the seeded users log in with. *)
Definition admin : Identity.t := Identity.mk 1 "ADMIN" "admin".
Definition editor1 : Identity.t := Identity.mk 2 "EDITOR" "editor1".
Definition editor2 : Identity.t := Identity.mk 3 "EDITOR" "editor2".
Definition viewer : Identity.t := Identity.mk 4 "VIEWER" "viewer".

(** [PUT /api/admin/users/2/role] with [{newRole: 'VIEWER'}], sent by admin. *)
Definition demote_editor1 : Request.t :=
  Request.mk (Bearer admin) None (Some 2)
    (Body.mk None None VUndefined VUndefined VUndefined VUndefined (VStr "VIEWER")).

(** [PUT /api/admin/users/99/role] with [{newRole: 'VIEWER'}], sent by admin:
    no user has the id 99. *)
Definition demote_nobody : Request.t :=
  Request.mk (Bearer admin) None (Some 99)
    (Body.mk None None VUndefined VUndefined VUndefined VUndefined (VStr "VIEWER")).

(** [POST /api/auth/register] with a role outside the closed set. *)
Definition register_superuser : Request.t :=
  Request.mk NoBearer None None
    (Body.mk (Some "mallory") (Some "secret") VUndefined (VStr "SUPERUSER")
       VUndefined VUndefined VUndefined).

(** [PUT /api/posts/:id] sent by [who] with a new title and an empty content. *)
Definition retitle (who : Identity.t) (postId : Z) (title : string) : Request.t :=
  Request.mk (Bearer who) None (Some postId)
    (Body.mk None None VUndefined VUndefined (VStr title) (VStr "") VUndefined).

(** [DELETE /api/posts/1] sent by the viewer. *)
Definition viewer_deletes : Request.t :=
  Request.mk (Bearer viewer) (Some "req-7") (Some 1) Body.empty.

(** [PUT /api/admin/users/4/role] with [{newRole: 'SUPERUSER'}], sent by admin. *)
Definition promote_to_superuser : Request.t :=
  Request.mk (Bearer admin) None (Some 4)
    (Body.mk None None VUndefined VUndefined VUndefined VUndefined (VStr "SUPERUSER")).

(** The third seeded post, written by editor2. *)
Definition editor2_article : Post.t :=
  Post.mk 3 (VStr "Editor 2 Public Article")
    (VStr "A public facing article by Editor 2.") 3 "editor2" 0 None.

(** ** Login *)

(** [POST /api/auth/login].  [bcrypt.compareSync] is a parameter; it throws
    when the password is not a string, which the handler does not catch:
    [None] stands for that exception.  The body holds a password as a string
    when there is one, so the password that is not a string is the missing
    one. *)
Definition post_auth_login (compareSync : string → hash → bool) (rq : Request.t)
    (db : DB.t) : option result :=
  let b := Request.body rq in
  let user :=
    List.find
      (λ u, match Body.username b with
            | Some username => String.eqb (User.username u) username
            | None => false
            end)
      (DB.users db) in
  let invalid := reply (Response 400 (Text "Invalid username or password.")) [] db in
  match user with
  | None => Some invalid
  | Some user =>
      match Body.password b with
      | None => None
      | Some password =>
          if negb (compareSync password (User.password user)) then Some invalid
          else
            let token :=
              Identity.mk (User.id user) (User.role user) (User.username user) in
            Some
              (reply
                 (send (LoginObj token (User.role user) (User.id user)
                          (User.username user)
                          ("Welcome, " +:+ User.username user +:+ " ("
                           +:+ User.role user +:+ ")!")))
                 [] db)
      end
  end.

(** The comparison of a password with a symbolic hash. *)
Definition symbolic_compare (password : string) (h : hash) : bool :=
  match h with
  | Bcrypt plain => String.eqb password plain
  end.

(** ** The client's permission check (rbac-project/client/src/App.jsx) *)

Module Client.
(** The matrix as the client mirrors it. *)
Definition PERMISSIONS : gmap string (gmap string (list string)) :=
  <["ADMIN" :=
      <["users" := ["create"; "read"; "update"; "delete"] ]>
     (<["posts" := ["create"; "read"; "update"; "delete"] ]>
     (<["admin" := ["manage_roles"] ]> ∅))]>
  (<["EDITOR" :=
      <["posts" := ["create"; "read"] ]>
     (<["self_posts" := ["update"; "delete"] ]>
     (<["users" := ["read"] ]> ∅))]>
  (<["VIEWER" :=
      <["posts" := ["read"] ]> ∅]> ∅)).

(** The [user] state of [useAuth]: what the server answered to a login or a
    registration. *)
Record t : Type := mk
  { token : Identity.t; role : string; userId : Z; username : string }.

(** [can(resource, action, itemAuthorId = null)], [user] being [None] when
    nobody is logged in. *)
Definition can (user : option t) (resource action : string)
    (itemAuthorId : option Z) : bool :=
  match user with
  | None => false
  | Some user =>
      if String.eqb (role user) "" then false
      else
        match PERMISSIONS !! role user with
        | None => false
        | Some rolePermissions =>
            if grants rolePermissions resource action then true
            else
              match itemAuthorId with
              | Some authorId =>
                  let selfResource := "self_" +:+ resource in
                  if grants rolePermissions selfResource action
                  then Z.eqb (userId user) authorId
                  else false
              | None => false
              end
        end
  end.

(** The state the client keeps after the server answered with [token]. *)
Definition logged_in (token : Identity.t) : t :=
  mk token (Identity.role token) (Identity.id token) (Identity.username token).
End Client.

(** ** Identifiers *)

(** Ids and user names identify: no id or user name is stored twice, and
    every id is below the counter the next one is taken from. *)
Definition ids_fresh (db : DB.t) : Prop :=
  NoDup (Post.id <$> DB.posts db) ∧
  Forall (λ p, Post.id p < DB.nextPostId db) (DB.posts db) ∧
  NoDup (User.id <$> DB.users db) ∧
  Forall (λ u, User.id u < DB.nextUserId db) (DB.users db) ∧
  NoDup (User.username <$> DB.users db).

(** Ids identify: no post id and no user id is stored twice, and every id is
    below the counter the next one is taken from. *)
Definition ids_distinct (db : DB.t) : Prop :=
  NoDup (Post.id <$> DB.posts db) ∧
  Forall (λ p, Post.id p < DB.nextPostId db) (DB.posts db) ∧
  NoDup (User.id <$> DB.users db) ∧
  Forall (λ u, User.id u < DB.nextUserId db) (DB.users db).

(** A request that carries the token [who]. *)
Definition sent_by (who : Identity.t) (rq : Request.t) : Prop :=
  Request.authorization rq = Bearer who.

(** The routes that only handle posts. *)
Definition post_route (r : route) : bool :=
  match r with
  | POST_posts | GET_posts | PUT_posts_id | DELETE_posts_id => true
  | _ => false
  end.

(** The post the request names is there, and its author is the caller
    unless the caller is an ADMIN. *)
Definition may_change (user : Identity.t) (rq : Request.t) (db : DB.t) : Prop :=
  ∃ i post,
    find_post rq db = Some i ∧ DB.posts db !! i = Some post ∧
    (Identity.role user = "ADMIN" ∨
     Identity.role user = "EDITOR" ∧ Post.authorId post = Identity.id user).

(** The object [POST /api/posts] stores. *)
Definition created_post (now : Z) (rq : Request.t) (user : Identity.t) (db : DB.t)
    : Post.t :=
  Post.mk (DB.nextPostId db) (Body.title (Request.body rq))
    (Body.content (Request.body rq)) (Identity.id user) (Identity.username user)
    now None.

(** [DELETE /api/posts/3] sent by editor2, who wrote that post. *)
Definition editor2_deletes_own : Request.t :=
  Request.mk (Bearer editor2) None (Some 3) Body.empty.

(** [PUT /api/posts/3] sent by editor2 with a new title and an empty content. *)
Definition editor2_retitles_own : Request.t := retitle editor2 3 "Second edition".

(** The user [POST /api/auth/register] stores for a name and a password. *)
Definition registered_user (rq : Request.t) (db : DB.t) (username password : string)
    : User.t :=
  User.mk (DB.nextUserId db) username (hashPassword password)
    (if includes ROLES (Body.role (Request.body rq))
     then string_of (Body.role (Request.body rq)) else "VIEWER")
    (js_or (Body.email (Request.body rq)) (VStr (username +:+ "@example.com"))).

(** The payload of the token issued for a stored user. *)
Definition token_of (u : User.t) : Identity.t :=
  Identity.mk (User.id u) (User.role u) (User.username u).

(** [POST /api/posts] sent by editor1, and the update of what it created. *)
Definition editor1_posts_note : Request.t := retitle editor1 0 "Note".
Definition editor1_edits_note : Request.t := retitle editor1 5 "Note, revised".

(** [POST /api/auth/register] asking for the role ADMIN. *)
Definition register_as_admin : Request.t :=
  Request.mk NoBearer None None
    (Body.mk (Some "mallory") (Some "secret") VUndefined (VStr "ADMIN")
       VUndefined VUndefined VUndefined).

(** What [POST /api/auth/login] answers for the stored user [u]. *)
Definition welcome (u : User.t) : response :=
  send (LoginObj (token_of u) (User.role u) (User.id u) (User.username u)
          ("Welcome, " +:+ User.username u +:+ " (" +:+ User.role u +:+ ")!")).

(** The request names the user and carries this password. *)
Definition credentials_of (rq : Request.t) (username password : string) : Prop :=
  Body.username (Request.body rq) = Some username ∧
  Body.password (Request.body rq) = Some password.

(** [POST /api/auth/login] as mallory, the user of [register_superuser]. *)
Definition login_mallory : Request.t :=
  Request.mk NoBearer None None
    (Body.mk (Some "mallory") (Some "secret") VUndefined VUndefined
       VUndefined VUndefined VUndefined).

(** [POST /api/auth/login] as editor1. *)
Definition login_editor1 : Request.t :=
  Request.mk NoBearer None None
    (Body.mk (Some "editor1") (Some "editor123") VUndefined VUndefined
       VUndefined VUndefined VUndefined).

(** [POST /api/auth/login] as editor1, without a password. *)
Definition login_without_password : Request.t :=
  Request.mk NoBearer None None
    (Body.mk (Some "editor1") None VUndefined VUndefined
       VUndefined VUndefined VUndefined).

(** [POST /api/auth/login] under a name no user has, without a password. *)
Definition login_nobody : Request.t :=
  Request.mk NoBearer None None
    (Body.mk (Some "nobody") None VUndefined VUndefined
       VUndefined VUndefined VUndefined).

(** A post as [GET /api/posts] lists it. *)
Definition listed_post (p : Post.t) : Post.t :=
  Post.mk (Post.id p) (Post.title p) (Post.content p) (Post.authorId p)
    (Post.author p) (Post.createdAt p) None.

(** A user as [GET /api/admin/users] lists it. *)
Definition listed_user (u : User.t) : Z * string * string * value :=
  (User.id u, User.username u, User.role u, User.email u).

(** [GET /api/posts] or [GET /api/admin/users] sent by editor1. *)
Definition editor1_reads : Request.t :=
  Request.mk (Bearer editor1) None None Body.empty.

(** What one request may do to the user stored at index [i]: nothing, or
    set its role to the one a role change asks for. *)
Definition user_kept (r : route) (rq : Request.t) (i : nat) (u : User.t) (db' : DB.t)
    : Prop :=
  ∃ u', DB.users db' !! i = Some u' ∧ u' = User.set_role (User.role u') u ∧
        (User.role u' = User.role u ∨
         r = PUT_admin_users_id_role ∧
         Body.newRole (Request.body rq) = VStr (User.role u')).

(** A role change and a registration, served in that order. *)
Definition demote_then_register : list arrival :=
  [Arrival PUT_admin_users_id_role 1000 demote_editor1;
   Arrival POST_auth_register 2000 register_superuser].

(** [req.headers['x-request-id'] || 'N/A'] *)
Definition correlation (rq : Request.t) : string :=
  match Request.x_request_id rq with
  | Some x => if String.eqb x "" then "N/A" else x
  | None => "N/A"
  end.

(** [PUT /api/posts/abc] sent by admin: the id does not parse. *)
Definition admin_names_no_number : Request.t :=
  Request.mk (Bearer admin) None None
    (Body.mk None None VUndefined VUndefined (VStr "Title") VUndefined (VStr "VIEWER")).

(** * Properties *)

(** ** The permission matrix *)

Lemma grants_true rolePermissions resource action :
  grants rolePermissions resource action = true ↔
  ∃ actions, rolePermissions !! resource = Some actions ∧ action ∈ actions.
Proof.
  unfold grants. destruct (rolePermissions !! resource) as [actions|].
  - rewrite bool_decide_eq_true. naive_solver.
  - naive_solver.
Qed.

Lemma PERMISSIONS_Some role rolePermissions :
  PERMISSIONS !! role = Some rolePermissions →
  role ∈ ROLES ∧ disjoint_grants rolePermissions.
Proof.
  unfold PERMISSIONS. rewrite !lookup_insert_Some, lookup_empty.
  intros [[<- <-]|[_ [[<- <-]|[_ [[<- <-]|[_ ?]]]]]]; [| | |done].
  all: split; [unfold ROLES; set_solver|].
  all: intros resource action (xs & Hx & Hin)%grants_true (ys & Hy & Hin')%grants_true.
  all: rewrite ?lookup_insert_Some, ?lookup_empty in Hx, Hy.
  all: simpl in Hy; naive_solver (auto; set_solver).
Qed.

Lemma PERMISSIONS_None role : PERMISSIONS !! role = None → role ∉ ROLES.
Proof.
  unfold PERMISSIONS, ROLES. rewrite !lookup_insert_None. set_solver.
Qed.

(** The table of the specification holds what the lookups of the server find
    in the matrix. *)
Lemma matrix_lookup role key action :
  bool_decide ((role, key, action) ∈ Spec.matrix) =
  match PERMISSIONS !! role with
  | Some rolePermissions => grants rolePermissions key action
  | None => false
  end.
Proof.
  apply Bool.eq_true_iff_eq. rewrite bool_decide_eq_true.
  unfold Spec.matrix. rewrite !elem_of_cons, elem_of_nil.
  destruct (PERMISSIONS !! role) as [p|] eqn:E.
  - rewrite grants_true. revert E. unfold PERMISSIONS.
    rewrite !lookup_insert_Some, lookup_empty.
    intros [[<- <-]|[_ [[<- <-]|[_ [[<- <-]|[_ ?]]]]]]; [| | |done].
    all: split.
    all: try (intros H; destruct_or!; simplify_eq;
              eexists; (split; [reflexivity|]); set_solver).
    all: intros (actions & Hl & Hin);
      rewrite ?lookup_insert_Some, ?lookup_empty in Hl;
      repeat match goal with
             | H : _ ∨ _ |- _ => destruct H
             | H : _ ∧ _ |- _ => destruct H
             end; simplify_eq;
      rewrite ?elem_of_cons, ?elem_of_nil in Hin;
      repeat match goal with H : _ ∨ _ |- _ => destruct H end;
      simplify_eq; tauto.
  - apply PERMISSIONS_None in E. unfold ROLES in E. set_solver.
Qed.

Lemma recognized_lookup role :
  Spec.recognized role = bool_decide (is_Some (PERMISSIONS !! role)).
Proof.
  unfold Spec.recognized. destruct (PERMISSIONS !! role) as [p|] eqn:E.
  - apply PERMISSIONS_Some in E as [E _].
    rewrite !bool_decide_eq_true_2; eauto.
  - apply PERMISSIONS_None in E.
    rewrite !bool_decide_eq_false_2; [done|by intros [??]|done].
Qed.

(** ** The decision of [authorize] *)

(** What [authorize] does, by cases on the matrix. *)
Lemma authorize_cases resource action isOwnerCheck now rq user :
  let role := Identity.role user in
  let s := authorize resource action isOwnerCheck now rq user in
  ((role ∉ ROLES) ∧
   s = Respond (Response 403 (ErrorObj "Forbidden. Invalid Role Configuration."))
         [Warn ("Attempted access by user " +:+ number_to_string (Identity.id user)
                +:+ " with invalid role: " +:+ role)]) ∨
  (role ∈ ROLES ∧ Spec.allows role resource action = true ∧ s = Next false) ∨
  (role ∈ ROLES ∧ Spec.allows role resource action = false ∧ isOwnerCheck = true ∧
   Spec.allowsSelfScoped role resource action = true ∧ s = Next true) ∨
  (role ∈ ROLES ∧ Spec.allows role resource action = false ∧
   (isOwnerCheck && Spec.allowsSelfScoped role resource action) = false ∧
   ∃ body out, s = Respond (Response 403 body) out ∧
     forallb (λ l, negb (audit_line l)) out = true).
Proof.
  intros role s. subst s. unfold authorize, Spec.allows, Spec.allowsSelfScoped.
  rewrite !matrix_lookup. fold role. destruct (PERMISSIONS !! role) as [p|] eqn:E.
  - apply PERMISSIONS_Some in E as [Hrole Hdisj]. right.
    destruct (grants p resource action) eqn:G;
      destruct isOwnerCheck;
      destruct (grants p ("self_" +:+ resource) action) eqn:S; cbn [andb].
    + exfalso. exact (Hdisj resource action G S).
    + left. done.
    + left. done.
    + left. done.
    + right. left. done.
    + right. right. eauto 10.
    + right. right. eauto 10.
    + right. right. eauto 10.
  - apply PERMISSIONS_None in E. left. done.
Qed.

Lemma unknown_role_no_grant role resource action :
  role ∉ ROLES →
  Spec.allows role resource action = false ∧
  Spec.allowsSelfScoped role resource action = false.
Proof.
  intros Hr. unfold Spec.allows, Spec.allowsSelfScoped. rewrite !matrix_lookup.
  destruct (PERMISSIONS !! role) as [p|] eqn:E; [|done].
  apply PERMISSIONS_Some in E as [E _]. done.
Qed.



(** A role named like an inherited member, on a resource that is none of
    the server's, is outside [reads_matrix]: there [PERMISSIONS['constructor']]
    is the [Object] function, not a row and not [undefined]. *)
Example inherited_role_is_outside : ¬ reads_matrix "constructor" "name".
Proof.
  intros [H|[H _]].
  - unfold RESOURCES in H. set_solver.
  - apply H. unfold INHERITED. set_solver.
Qed.

Example editor_creates_posts now rq :
  decision (authorize "posts" "create" false now rq editor1) = Spec.Verdict true false.
Proof. vm_compute. reflexivity. Qed.

(** ** Array helpers *)

Lemma findIndex_Some {A} (f : A → bool) (xs : list A) i :
  findIndex f xs = Some i →
  ∃ x, xs !! i = Some x ∧ f x = true.
Proof.
  revert i. induction xs as [|y xs IH]; intros i; simpl; [done|].
  destruct (f y) eqn:Hy.
  - intros [= <-]. eauto.
  - destruct (findIndex f xs) as [j|]; simpl; [|done].
    intros [= <-]. apply IH. done.
Qed.

Example unknown_role_is_configuration_fault now rq :
  authorize "posts" "read" false now rq (Identity.mk 9 "SUPERUSER" "mallory") =
    Respond (Response 403 (ErrorObj "Forbidden. Invalid Role Configuration."))
      [Warn "Attempted access by user 9 with invalid role: SUPERUSER"].
Proof. vm_compute. reflexivity. Qed.

Lemma findIndex_None {A} (f : A → bool) (xs : list A) :
  findIndex f xs = None ↔ ∀ x, x ∈ xs → f x = false.
Proof.
  induction xs as [|y xs IH]; simpl.
  - split; [|done]. intros _ x Hx. by apply not_elem_of_nil in Hx.
  - destruct (f y) eqn:Hy.
    + split; [done|]. intros H. rewrite H in Hy; [done|]. apply list_elem_of_here.
    + destruct (findIndex f xs) as [j|]; simpl.
      * split; [done|]. intros H.
        assert (Some j = None); [|done]. apply IH. intros x Hx. apply H.
        by apply list_elem_of_further.
      * split; [|done]. intros _ x [->|Hx]%elem_of_cons; [done|].
        by apply IH.
Qed.

Lemma strict_eq_true n m : strict_eq n m = true ↔ m = Some n.
Proof.
  destruct m as [m|]; simpl; [|done]. rewrite Z.eqb_eq.
  split; [intros ->|intros [= ->]]; done.
Qed.

(** [findIndex] returns the index of the first element that satisfies [f]. *)
Lemma findIndex_first {A} (f : A → bool) (xs : list A) i x :
  findIndex f xs = Some i ∧ xs !! i = Some x ↔
  ∃ before after, xs = (before ++ x :: after)%list ∧ length before = i ∧
    f x = true ∧ ∀ y, y ∈ before → f y = false.
Proof.
  revert i. induction xs as [|y xs IH]; intros i; simpl.
  - split; [by intros [[=] _]|]. intros (b & a & H & _). by destruct b.
  - destruct (f y) eqn:Hy.
    + split.
      * intros [[= <-] [= <-]]. exists [], xs. split_and!; try done.
        intros z Hz. by apply not_elem_of_nil in Hz.
      * intros (b & a & H & Hl & Hx & Hb). destruct b as [|z b]; simpl in *.
        -- injection H as -> ->. by subst i.
        -- injection H as -> ->. rewrite Hb in Hy; [done|]. apply list_elem_of_here.
    + destruct (findIndex f xs) as [j|] eqn:Hj; simpl.
      * split.
        -- intros [[= <-] Hl]. simpl in Hl.
           destruct (proj1 (IH j) (conj eq_refl Hl)) as (b & a & -> & <- & Hx & Hb).
           exists (y :: b), a. split_and!; try done.
           intros z [->|Hz]%elem_of_cons; auto.
        -- intros (b & a & H & Hl & Hx & Hb). destruct b as [|z b]; simpl in *;
             injection H as -> ->; [congruence|].
           destruct (proj2 (IH (length b))) as [[= ->] Hl'].
           { exists b, a. split_and!; try done.
             intros w Hw. apply Hb. by apply list_elem_of_further. }
           subst i. done.
      * split; [by intros [[=] _]|].
        intros (b & a & H & Hl & Hx & Hb). destruct b as [|z b]; simpl in *;
          injection H as -> ->; [congruence|].
        destruct (proj2 (IH (length b))) as [[=] _].
        exists b, a. split_and!; try done.
        intros w Hw. apply Hb. by apply list_elem_of_further.
Qed.

(** ** Routes behind [authorize] *)

Lemma guarded_Bearer resource action isOwnerCheck h now rq user :
  Request.authorization rq = Bearer user →
  guarded resource action isOwnerCheck h now rq =
    match authorize resource action isOwnerCheck now rq user with
    | Respond r out => reply r out
    | Next isOwnerCheckRequired => h now rq user isOwnerCheckRequired
    end.
Proof. intros H. unfold guarded, authMiddleware. rewrite H. done. Qed.

(** A guarded route either runs its handler, for the verified identity and
    with the flag left by [authorize], or answers 400, 401 or 403 without
    touching the tables. *)
Lemma guarded_inv resource action isOwnerCheck h now rq db :
  (∃ user flag,
     Request.authorization rq = Bearer user ∧
     authorize resource action isOwnerCheck now rq user = Next flag ∧
     guarded resource action isOwnerCheck h now rq db = h now rq user flag db) ∨
  (∃ r out,
     guarded resource action isOwnerCheck h now rq db = Result db r out ∧
     (status r = 400 ∨ status r = 401 ∨ status r = 403) ∧
     forallb (λ l, negb (audit_line l)) out = true).
Proof.
  unfold guarded, authMiddleware.
  destruct (Request.authorization rq) as [|m|user] eqn:Hauth.
  - right. eexists _, _. split; [done|]. split; [simpl; auto|done].
  - right. eexists _, _. split; [done|]. split; [simpl; auto|done].
  - destruct (authorize_cases resource action isOwnerCheck now rq user)
      as [[Hr E]|[(Hr & Ha & E)|[(Hr & Ha & Ho & Hs & E)|(Hr & Ha & Hs & b & o & E & Hout)]]].
    + right. rewrite E. eexists _, _. split; [done|]. split; [simpl; auto|done].
    + left. exists user, false. rewrite E. done.
    + left. exists user, true. rewrite E. done.
    + right. rewrite E. eexists _, _. split; [done|]. split; [simpl; auto|done].
Qed.

Lemma authorize_Respond resource action isOwnerCheck now rq user r out :
  authorize resource action isOwnerCheck now rq user = Respond r out →
  status r = 403 ∧ forallb (λ l, negb (audit_line l)) out = true.
Proof.
  intros E.
  destruct (authorize_cases resource action isOwnerCheck now rq user)
    as [[_ E']|[(_ & _ & E')|[(_ & _ & _ & _ & E')|(_ & _ & _ & b & o & E' & Hout)]]];
    rewrite E' in E; try discriminate E; injection E as <- <-; done.
Qed.

(** C4: when [authorize] denies, the route answers 403 whatever the handler
    and whatever the tables hold, and leaves the tables as they were: the
    handler body, and with it every post lookup, is never reached. *)
Theorem denial_precedes_lookup resource action isOwnerCheck now rq user :
  Request.authorization rq = Bearer user →
  Spec.allowed (decision (authorize resource action isOwnerCheck now rq user)) = false →
  ∃ r out,
    status r = 403 ∧
    ∀ h db, guarded resource action isOwnerCheck h now rq db = Result db r out.
Proof.
  intros Hauth Hdeny.
  destruct (authorize resource action isOwnerCheck now rq user) as [flag|r out] eqn:E;
    [discriminate Hdeny|].
  exists r, out. split; [by eapply authorize_Respond|].
  intros h db. rewrite (guarded_Bearer _ _ _ _ _ _ _ Hauth), E. done.
Qed.

(** The viewer asks to delete a post. *)
Lemma denial_precedes_lookup_viewer :
  ∃ r out,
    status r = 403 ∧
    ∀ h db, guarded "posts" "delete" true h 1000 viewer_deletes db = Result db r out.
Proof.
  apply (denial_precedes_lookup "posts" "delete" true 1000 viewer_deletes viewer).
  - reflexivity.
  - vm_compute. reflexivity.
Defined.

Example viewer_delete_denied :
  app DELETE_posts_id 1000 viewer_deletes (initial 0) =
    Result (initial 0)
      (Response 403
         (ErrorObj "Forbidden. Role 'VIEWER' cannot perform 'delete' on 'posts'."))
      [Log "Authorization Denial (403): User viewer (Role: VIEWER) failed check for posts:delete";
       Error (Denial "error" "AuthorizationDenied" 4 "viewer" "VIEWER" "posts:delete"
                1000 "req-7")].
Proof. vm_compute. reflexivity. Qed.

(** ** The post handlers *)

Lemma find_post_None rq db :
  find_post rq db = None ↔ ¬ post_exists (Request.params_id rq) db.
Proof.
  unfold find_post, post_exists. rewrite findIndex_None. split.
  - intros H (p & Hp & Hid). rewrite (H p Hp) in Hid. done.
  - intros H p Hp. destruct (strict_eq _ _) eqn:E; [|done].
    destruct H. eauto.
Qed.

Lemma find_post_Some rq db i :
  find_post rq db = Some i →
  ∃ post, DB.posts db !! i = Some post ∧ post_exists (Request.params_id rq) db.
Proof.
  intros (post & Hp & Hid)%findIndex_Some. exists post. split; [done|].
  exists post. split; [|done]. by eapply list_elem_of_lookup_2.
Qed.

Lemma put_posts_id_found now rq user flag db i post :
  find_post rq db = Some i → DB.posts db !! i = Some post →
  put_posts_id now rq user flag db =
    if flag && negb (Z.eqb (Post.authorId post) (Identity.id user))
    then
      Result db
        (Response 403 (ErrorObj "Forbidden. You can only update your own posts."))
        [Log ("Authorization Denial (403): User " +:+ Identity.username user
              +:+ " attempted to update post " +:+ show_number (Request.params_id rq)
              +:+ " belonging to " +:+ number_to_string (Post.authorId post))]
    else
      let updated :=
        Post.mk (Post.id post)
          (js_or (Body.title (Request.body rq)) (Post.title post))
          (js_or (Body.content (Request.body rq)) (Post.content post))
          (Post.authorId post) (Post.author post) (Post.createdAt post) (Some now) in
      Result (DB.with_posts (<[i := updated]> (DB.posts db)) db)
        (send (PostObj updated)) [].
Proof.
  unfold find_post, put_posts_id. intros -> ->.
  destruct flag, (Z.eqb (Post.authorId post) (Identity.id user)); done.
Qed.

Lemma delete_posts_id_found now rq user flag db i post :
  find_post rq db = Some i → DB.posts db !! i = Some post →
  delete_posts_id now rq user flag db =
    if flag && negb (Z.eqb (Post.authorId post) (Identity.id user))
    then
      Result db
        (Response 403 (ErrorObj "Forbidden. You can only delete your own posts."))
        [Log ("Authorization Denial (403): User " +:+ Identity.username user
              +:+ " attempted to delete post " +:+ show_number (Request.params_id rq)
              +:+ " belonging to " +:+ number_to_string (Post.authorId post))]
    else
      Result (DB.with_posts (delete i (DB.posts db)) db)
        (send (MessageObj "Post deleted successfully.")) [].
Proof.
  unfold find_post, delete_posts_id. intros -> ->.
  destruct flag, (Z.eqb (Post.authorId post) (Identity.id user)); done.
Qed.

Lemma put_posts_id_missing now rq user flag db :
  find_post rq db = None →
  put_posts_id now rq user flag db =
    Result db (Response 404 (Text "Post not found.")) [].
Proof. unfold find_post, put_posts_id. intros ->. done. Qed.

Lemma delete_posts_id_missing now rq user flag db :
  find_post rq db = None →
  delete_posts_id now rq user flag db =
    Result db (Response 404 (Text "Post not found.")) [].
Proof. unfold find_post, delete_posts_id. intros ->. done. Qed.

Lemma handlers_settled now rq user flag db i post :
  find_post rq db = Some i → DB.posts db !! i = Some post →
  let final :=
    Spec.resolve (Spec.Verdict true flag) (Post.authorId post) (Identity.id user) in
  settled db final (put_posts_id now rq user flag db) ∧
  settled db final (delete_posts_id now rq user flag db).
Proof.
  intros Hi Hp final. subst final.
  rewrite (put_posts_id_found _ _ _ _ _ _ _ Hi Hp),
    (delete_posts_id_found _ _ _ _ _ _ _ Hi Hp).
  unfold settled, Spec.resolve. cbn [Spec.allowed Spec.ownershipCheckRequired negb].
  destruct flag, (Z.eqb (Post.authorId post) (Identity.id user)); done.
Qed.

Lemma route_settled resource action h now rq user db post :
  Request.authorization rq = Bearer user →
  (∀ flag,
     settled db
       (Spec.resolve (Spec.Verdict true flag) (Post.authorId post) (Identity.id user))
       (h now rq user flag db)) →
  settled db
    (Spec.resolve (decision (authorize resource action true now rq user))
       (Post.authorId post) (Identity.id user))
    (guarded resource action true h now rq db).
Proof.
  intros Hauth Hh. rewrite (guarded_Bearer _ _ _ _ _ _ _ Hauth).
  destruct (authorize resource action true now rq user) as [flag|r out] eqn:E.
  - apply Hh.
  - apply authorize_Respond in E as [E _]. done.
Qed.

(** The resolver of the specification, verdict by verdict. *)
Lemma resolve_table owner me flag :
  Spec.resolve (Spec.Verdict true false) owner me = true ∧
  Spec.resolve (Spec.Verdict true true) owner me = Z.eqb owner me ∧
  Spec.resolve (Spec.Verdict false flag) owner me = false.
Proof. done. Qed.

(** C3: against an existing post, the update and delete handlers finish the
    decision of [authorize] as the resolver prescribes: an unconditional
    grant goes through whoever owns the post, a conditional grant goes
    through exactly when the post's author is the caller, and a request that
    [authorize] denied ends in a denial. *)
Theorem ownership_resolved now rq user db i post :
  Request.authorization rq = Bearer user →
  find_post rq db = Some i →
  DB.posts db !! i = Some post →
  let owner := Post.authorId post in
  let me := Identity.id user in
  (∀ flag,
     settled db (Spec.resolve (Spec.Verdict true flag) owner me)
       (put_posts_id now rq user flag db) ∧
     settled db (Spec.resolve (Spec.Verdict true flag) owner me)
       (delete_posts_id now rq user flag db)) ∧
  settled db
    (Spec.resolve (decision (authorize "posts" "update" true now rq user)) owner me)
    (app PUT_posts_id now rq db) ∧
  settled db
    (Spec.resolve (decision (authorize "posts" "delete" true now rq user)) owner me)
    (app DELETE_posts_id now rq db).
Proof.
  intros Hauth Hi Hp owner me. subst owner me.
  pose proof (λ flag, handlers_settled now rq user flag db i post Hi Hp) as Hh.
  cbn zeta in Hh. split; [done|]. unfold app. split.
  - apply route_settled; [done|]. intros flag. apply Hh.
  - apply route_settled; [done|]. intros flag. apply Hh.
Qed.

(** editor1 asks to change the post of editor2. *)
Lemma ownership_resolved_seeded :
  let rq := retitle editor1 3 "Mine now" in
  let owner := Post.authorId editor2_article in
  let me := Identity.id editor1 in
  (∀ flag,
     settled (initial 0) (Spec.resolve (Spec.Verdict true flag) owner me)
       (put_posts_id 1000 rq editor1 flag (initial 0)) ∧
     settled (initial 0) (Spec.resolve (Spec.Verdict true flag) owner me)
       (delete_posts_id 1000 rq editor1 flag (initial 0))) ∧
  settled (initial 0)
    (Spec.resolve (decision (authorize "posts" "update" true 1000 rq editor1)) owner me)
    (app PUT_posts_id 1000 rq (initial 0)) ∧
  settled (initial 0)
    (Spec.resolve (decision (authorize "posts" "delete" true 1000 rq editor1)) owner me)
    (app DELETE_posts_id 1000 rq (initial 0)).
Proof.
  apply (ownership_resolved 1000 (retitle editor1 3 "Mine now") editor1 (initial 0)
           2%nat editor2_article); reflexivity.
Defined.

Example editor_updates_own_post :
  status (res (app PUT_posts_id 1000 (retitle editor1 2 "Draft 2") (initial 0))) = 200.
Proof. vm_compute. reflexivity. Qed.

Example editor_cannot_update_foreign_post :
  res (app PUT_posts_id 1000 (retitle editor1 3 "Mine now") (initial 0)) =
    Response 403 (ErrorObj "Forbidden. You can only update your own posts.").
Proof. vm_compute. reflexivity. Qed.

Example admin_updates_any_post :
  status (res (app PUT_posts_id 1000 (retitle admin 3 "Moderated") (initial 0))) = 200.
Proof. vm_compute. reflexivity. Qed.

(** The post the handlers pick is the post the request names. *)
Lemma names_post_found rq db post :
  names_post rq db post ↔
  ∃ i, find_post rq db = Some i ∧ DB.posts db !! i = Some post.
Proof.
  unfold names_post, find_post. split.
  - intros (b & a & Hp & Hid & Hb). exists (length b). apply findIndex_first.
    exists b, a. split_and!; try done; [by apply strict_eq_true|].
    intros p Hin. rewrite Hid. simpl. apply Z.eqb_neq. by apply Hb.
  - intros (i & H). apply findIndex_first in H as (b & a & Hp & _ & Hx & Hb).
    apply strict_eq_true in Hx. exists b, a. split_and!; try done.
    intros p Hin Heq. specialize (Hb p Hin). rewrite Hx in Hb. simpl in Hb.
    rewrite Heq, Z.eqb_refl in Hb. done.
Qed.

Lemma find_post_stored rq db :
  find_post rq db = None ↔
  ¬ ∃ post, post ∈ DB.posts db ∧ Request.params_id rq = Some (Post.id post).
Proof.
  rewrite find_post_None. unfold post_exists.
  split; intros H (post & Hin & Hid); apply H; exists post; split; try done;
    by apply strict_eq_true.
Qed.

(** C5: under a conditional grant, a post that is stored under the requested
    id but belongs to someone else is answered 403, not 404; 404 is answered
    exactly when no stored post has the requested id, and the handlers' 403
    exactly when the request names a stored post whose author differs from
    the caller. *)
Theorem mismatch_is_forbidden now rq user db :
  let put := status (res (put_posts_id now rq user true db)) in
  let del := status (res (delete_posts_id now rq user true db)) in
  let stored :=
    ∃ post, post ∈ DB.posts db ∧ Request.params_id rq = Some (Post.id post) in
  let foreign :=
    ∃ post, names_post rq db post ∧ Post.authorId post ≠ Identity.id user in
  (foreign → put = 403 ∧ del = 403 ∧ put ≠ 404 ∧ del ≠ 404) ∧
  (put = 404 ↔ ¬ stored) ∧ (del = 404 ↔ ¬ stored) ∧
  (put = 403 ↔ foreign) ∧ (del = 403 ↔ foreign).
Proof.
  intros put del stored foreign. subst put del stored foreign.
  rewrite <- find_post_stored.
  destruct (find_post rq db) as [i|] eqn:Hi.
  - destruct (find_post_Some _ _ _ Hi) as (post & Hp & _).
    assert (names_post rq db post) as Hn by (apply names_post_found; eauto).
    assert (∀ post', names_post rq db post' → post' = post) as Huniq.
    { intros post' (i' & Hi' & Hp')%names_post_found. congruence. }
    rewrite (put_posts_id_found _ _ _ _ _ _ _ Hi Hp),
      (delete_posts_id_found _ _ _ _ _ _ _ Hi Hp). cbn [andb].
    destruct (Z.eqb_spec (Post.authorId post) (Identity.id user)) as [Heq|Hne];
      cbn [negb res status send].
    + split_and!; try done; try (split; [done|]).
      all: intros (post' & ->%Huniq & Hne); done.
    + split_and!; try done; split; try done; intros _; eauto.
  - rewrite (put_posts_id_missing _ _ _ _ _ Hi), (delete_posts_id_missing _ _ _ _ _ Hi).
    cbn [res status].
    split_and!; try done; try (split; [done|]).
    all: intros (post' & (i' & Hi' & _)%names_post_found & _); congruence.
Qed.

(** editor1 asks for the third seeded post, which editor2 wrote: 403 from
    both handlers; for an id no post has: 404. *)
Lemma mismatch_is_forbidden_seeded :
  status (res (put_posts_id 1000 (retitle editor1 3 "Mine now") editor1 true (initial 0)))
    = 403 ∧
  status (res (delete_posts_id 1000 (retitle editor1 3 "Mine now") editor1 true
                 (initial 0))) = 403 ∧
  status (res (put_posts_id 1000 (retitle editor1 99 "Nowhere") editor1 true
                 (initial 0))) = 404 ∧
  res (app PUT_posts_id 1000 (retitle editor1 3 "Mine now") (initial 0)) =
    Response 403 (ErrorObj "Forbidden. You can only update your own posts.") ∧
  res (app DELETE_posts_id 1000 (retitle editor1 3 "Mine now") (initial 0)) =
    Response 403 (ErrorObj "Forbidden. You can only delete your own posts.").
Proof.
  destruct (mismatch_is_forbidden 1000 (retitle editor1 3 "Mine now") editor1
              (initial 0)) as (Hforeign & _).
  destruct (mismatch_is_forbidden 1000 (retitle editor1 99 "Nowhere") editor1
              (initial 0)) as (_ & Hmissing & _).
  destruct Hforeign as (Hput & Hdel & _).
  { exists editor2_article. split; [|done].
    exists (take 2 (DB.posts (initial 0))), (drop 3 (DB.posts (initial 0))).
    split_and!; [reflexivity|reflexivity|].
    intros p [->|[->|[]%elem_of_nil]%elem_of_cons]%elem_of_cons; done. }
  split_and!; [exact Hput|exact Hdel| |vm_compute; reflexivity..].
  apply Hmissing. intros (post & Hin & [= Hid]).
  revert Hin. unfold initial, seedDatabase. cbn [DB.posts].
  rewrite !elem_of_cons, elem_of_nil. intros [->|[->|[->|[->|[]]]]]; done.
Defined.

Example foreign_post_is_owned_by_another :
  owned_by_another (retitle editor1 3 "Mine now") editor1 (initial 0).
Proof. exists 2%nat, editor2_article. split_and!; done. Qed.

Example missing_post_is_not_found :
  res (app PUT_posts_id 1000 (retitle editor1 99 "Nowhere") (initial 0)) =
    Response 404 (Text "Post not found.").
Proof. vm_compute. reflexivity. Qed.

(** The index [findIndex] returns is in range: no handler reads a missing
    element and throws. *)
Lemma handlers_never_throw now rq user flag db :
  status (res (put_posts_id now rq user flag db)) ≠ 500 ∧
  status (res (delete_posts_id now rq user flag db)) ≠ 500 ∧
  status (res (put_admin_users_id_role now rq user flag db)) ≠ 500.
Proof.
  split_and!.
  - destruct (find_post rq db) as [i|] eqn:Hi.
    + destruct (find_post_Some _ _ _ Hi) as (post & Hp & _).
      rewrite (put_posts_id_found _ _ _ _ _ _ _ Hi Hp).
      by destruct (flag && negb (Z.eqb (Post.authorId post) (Identity.id user))).
    + by rewrite (put_posts_id_missing _ _ _ _ _ Hi).
  - destruct (find_post rq db) as [i|] eqn:Hi.
    + destruct (find_post_Some _ _ _ Hi) as (post & Hp & _).
      rewrite (delete_posts_id_found _ _ _ _ _ _ _ Hi Hp).
      by destruct (flag && negb (Z.eqb (Post.authorId post) (Identity.id user))).
    + by rewrite (delete_posts_id_missing _ _ _ _ _ Hi).
  - unfold put_admin_users_id_role.
    destruct (includes ROLES (Body.newRole (Request.body rq))); cbn [negb]; [|done].
    destruct (findIndex _ (DB.users db)) as [i|] eqn:Hi; [|done].
    destruct (findIndex_Some _ _ _ Hi) as (u & -> & _). done.
Qed.

(** ** Role assignment *)

Lemma includes_ROLES v :
  includes ROLES v = true ↔ ∃ s, v = VStr s ∧ s ∈ ROLES.
Proof.
  destruct v; simpl; try (split; [done|by intros (? & ? & ?)]).
  rewrite bool_decide_eq_true. naive_solver.
Qed.

Lemma put_admin_users_id_role_invalid now rq user flag db :
  includes ROLES (Body.newRole (Request.body rq)) = false →
  put_admin_users_id_role now rq user flag db =
    Result db (Response 400 (Text "Invalid role provided.")) [].
Proof. unfold put_admin_users_id_role. intros ->. done. Qed.

Lemma put_admin_users_id_role_inv now rq user flag db :
  status (res (put_admin_users_id_role now rq user flag db)) = 200 →
  ∃ newRole i u,
    Body.newRole (Request.body rq) = VStr newRole ∧ newRole ∈ ROLES ∧
    find_user rq db = Some i ∧ DB.users db !! i = Some u ∧
    Request.params_id rq = Some (User.id u) ∧
    put_admin_users_id_role now rq user flag db =
      Result (DB.with_users (<[i := User.set_role newRole u]> (DB.users db)) db)
        (Response 200
           (MessageObj ("Role updated to " +:+ newRole +:+ " for user "
                        +:+ User.username u +:+ ".")))
        [Log ("[AUDIT] Role changed for User ID " +:+ number_to_string (User.id u)
              +:+ " (" +:+ User.username u +:+ ") by Admin ID "
              +:+ number_to_string (Identity.id user)
              +:+ ". Old Role: " +:+ User.role u
              +:+ ", New Role: " +:+ newRole)].
Proof.
  unfold put_admin_users_id_role, find_user.
  destruct (includes ROLES (Body.newRole (Request.body rq))) eqn:Hinc;
    cbn [negb]; [|done].
  apply includes_ROLES in Hinc as (newRole & -> & Hrole).
  destruct (findIndex _ (DB.users db)) as [i|] eqn:Hi; [|done].
  destruct (findIndex_Some _ _ _ Hi) as (u & Hu & Hid). rewrite Hu.
  intros _. exists newRole, i, u.
  unfold strict_eq in Hid. destruct (Request.params_id rq) as [m|]; [|done].
  apply Z.eqb_eq in Hid as <-. done.
Qed.

(** C6: a role change whose target role is outside ADMIN/EDITOR/VIEWER is
    turned down before anything is written: the handler answers 400 with the
    tables as they were and prints nothing, so does the route for a caller
    that [authorize] lets through, and whoever sends the request the route
    leaves the tables untouched, answers 400, 401 or 403 and prints no audit
    line. *)
Theorem invalid_role_changes_nothing now rq db :
  includes ROLES (Body.newRole (Request.body rq)) = false →
  (∀ user flag,
     put_admin_users_id_role now rq user flag db =
       Result db (Response 400 (Text "Invalid role provided.")) []) ∧
  (∀ user,
     Request.authorization rq = Bearer user →
     Spec.allowed (decision (authorize "admin" "manage_roles" false now rq user)) = true →
     app PUT_admin_users_id_role now rq db =
       Result db (Response 400 (Text "Invalid role provided.")) []) ∧
  let r := app PUT_admin_users_id_role now rq db in
  tables r = db ∧
  (status (res r) = 400 ∨ status (res r) = 401 ∨ status (res r) = 403) ∧
  forallb (λ l, negb (audit_line l)) (console r) = true.
Proof.
  intros Hinv. split_and!.
  - intros user flag. by apply put_admin_users_id_role_invalid.
  - intros user Hauth Hgate. unfold app. rewrite (guarded_Bearer _ _ _ _ _ _ _ Hauth).
    destruct (authorize "admin" "manage_roles" false now rq user) as [flag|r out];
      [|discriminate Hgate].
    by apply put_admin_users_id_role_invalid.
  - unfold app.
    destruct (guarded_inv "admin" "manage_roles" false put_admin_users_id_role now rq db)
      as [(user & flag & _ & _ & ->)|(r & out & -> & Hs & Hout)]; [|done].
    rewrite put_admin_users_id_role_invalid by done. cbn. auto.
Qed.

(** admin asks for the role SUPERUSER. *)
Lemma invalid_role_changes_nothing_seeded :
  (∀ user flag,
     put_admin_users_id_role 1000 promote_to_superuser user flag (initial 0) =
       Result (initial 0) (Response 400 (Text "Invalid role provided.")) []) ∧
  (∀ user,
     Request.authorization promote_to_superuser = Bearer user →
     Spec.allowed
       (decision (authorize "admin" "manage_roles" false 1000 promote_to_superuser user))
       = true →
     app PUT_admin_users_id_role 1000 promote_to_superuser (initial 0) =
       Result (initial 0) (Response 400 (Text "Invalid role provided.")) []) ∧
  let r := app PUT_admin_users_id_role 1000 promote_to_superuser (initial 0) in
  tables r = initial 0 ∧
  (status (res r) = 400 ∨ status (res r) = 401 ∨ status (res r) = 403) ∧
  forallb (λ l, negb (audit_line l)) (console r) = true.
Proof.
  apply (invalid_role_changes_nothing 1000 promote_to_superuser (initial 0)).
  vm_compute. reflexivity.
Defined.

Example admin_superuser_request :
  app PUT_admin_users_id_role 1000 promote_to_superuser (initial 0) =
    Result (initial 0) (Response 400 (Text "Invalid role provided.")) [].
Proof. vm_compute. reflexivity. Qed.

(** C7 (amended): a role change that answers 200 was sent by a verified
    caller for a role of the closed set and a user of the table; it rewrites
    that user's role only, prints exactly one line, the audit line naming the
    user's id and name, the caller's id, the previous role and the new role,
    and answers with a message naming the new role and the user. *)
Theorem role_change_audited now rq db :
  let r := app PUT_admin_users_id_role now rq db in
  status (res r) = 200 →
  ∃ actor newRole i u,
    Request.authorization rq = Bearer actor ∧
    Body.newRole (Request.body rq) = VStr newRole ∧ newRole ∈ ROLES ∧
    find_user rq db = Some i ∧ DB.users db !! i = Some u ∧
    tables r = DB.with_users (<[i := User.set_role newRole u]> (DB.users db)) db ∧
    console r =
      [Log ("[AUDIT] Role changed for User ID " +:+ number_to_string (User.id u)
            +:+ " (" +:+ User.username u +:+ ") by Admin ID "
            +:+ number_to_string (Identity.id actor)
            +:+ ". Old Role: " +:+ User.role u
            +:+ ", New Role: " +:+ newRole)] ∧
    res r =
      Response 200
        (MessageObj ("Role updated to " +:+ newRole +:+ " for user "
                     +:+ User.username u +:+ ".")).
Proof.
  intros r. subst r. unfold app.
  destruct (guarded_inv "admin" "manage_roles" false put_admin_users_id_role now rq db)
    as [(actor & flag & Hauth & _ & ->)|(r & out & -> & Hs & _)].
  - intros (newRole & i & u & Hnew & Hrole & Hi & Hu & _ & ->)%put_admin_users_id_role_inv.
    exists actor, newRole, i, u. done.
  - cbn [res]. intros E. rewrite E in Hs. by destruct Hs as [?|[?|?]].
Qed.

(** admin turns editor1 into a VIEWER. *)
Lemma role_change_audited_seeded :
  let r := app PUT_admin_users_id_role 1000 demote_editor1 (initial 0) in
  ∃ actor newRole i u,
    Request.authorization demote_editor1 = Bearer actor ∧
    Body.newRole (Request.body demote_editor1) = VStr newRole ∧ newRole ∈ ROLES ∧
    find_user demote_editor1 (initial 0) = Some i ∧
    DB.users (initial 0) !! i = Some u ∧
    tables r =
      DB.with_users (<[i := User.set_role newRole u]> (DB.users (initial 0)))
        (initial 0) ∧
    console r =
      [Log ("[AUDIT] Role changed for User ID " +:+ number_to_string (User.id u)
            +:+ " (" +:+ User.username u +:+ ") by Admin ID "
            +:+ number_to_string (Identity.id actor)
            +:+ ". Old Role: " +:+ User.role u
            +:+ ", New Role: " +:+ newRole)] ∧
    res r =
      Response 200
        (MessageObj ("Role updated to " +:+ newRole +:+ " for user "
                     +:+ User.username u +:+ ".")).
Proof.
  apply (role_change_audited 1000 demote_editor1 (initial 0)).
  vm_compute. reflexivity.
Defined.

(** C7 (as stated) fails: admin turns editor1 from EDITOR into VIEWER; the
    200 response names the new role but not the previous one, and the single
    audit line is the same text at any instant, so it carries no timestamp. *)
Lemma role_change_response_omits_previous_role :
  let r := app PUT_admin_users_id_role 1000 demote_editor1 (initial 0) in
  User.role <$> DB.users (initial 0) !! 1%nat = Some "EDITOR" ∧
  User.role <$> DB.users (tables r) !! 1%nat = Some "VIEWER" ∧
  res r = Response 200 (MessageObj "Role updated to VIEWER for user editor1.") ∧
  String.index 0 "EDITOR" "Role updated to VIEWER for user editor1." = None ∧
  console r =
    [Log "[AUDIT] Role changed for User ID 2 (editor1) by Admin ID 1. Old Role: EDITOR, New Role: VIEWER"] ∧
  console (app PUT_admin_users_id_role 2000 demote_editor1 (initial 0)) = console r.
Proof. vm_compute. repeat split. Qed.

(** ** Stored roles stay in the closed set *)

Lemma guarded_tables (P : DB.t → Prop) resource action isOwnerCheck h now rq db :
  P db →
  (∀ user flag, P (tables (h now rq user flag db))) →
  P (tables (guarded resource action isOwnerCheck h now rq db)).
Proof.
  intros Hdb Hh.
  destruct (guarded_inv resource action isOwnerCheck h now rq db)
    as [(user & flag & _ & _ & ->)|(r & out & -> & _)]; [apply Hh|done].
Qed.

Lemma register_as_viewer rq db :
  includes ROLES (Body.role (Request.body rq)) = false →
  post_auth_register rq db = post_auth_register (as_viewer rq) db.
Proof.
  intros Hinv. unfold post_auth_register, as_viewer.
  cbn [Request.body Body.username Body.password Body.email Body.role].
  rewrite Hinv.
  replace (includes ROLES (VStr "VIEWER")) with true by (vm_compute; reflexivity).
  done.
Qed.

Lemma register_roles_valid rq db :
  roles_valid db → roles_valid (tables (post_auth_register rq db)).
Proof.
  unfold roles_valid, post_auth_register. intros Hdb.
  destruct (Body.username (Request.body rq)) as [username|]; [|done].
  destruct (Body.password (Request.body rq)) as [password|]; [|done].
  destruct (String.eqb username "" || String.eqb password ""); [done|].
  destruct (existsb _ (DB.users db)); [done|].
  cbn [tables DB.users]. apply Forall_app. split; [done|].
  apply Forall_singleton. cbn [User.role].
  destruct (includes ROLES (Body.role (Request.body rq))) eqn:Hinc.
  - apply includes_ROLES in Hinc as (s & -> & Hs). done.
  - unfold ROLES. set_solver.
Qed.

Lemma change_role_roles_valid now rq user flag db :
  roles_valid db → roles_valid (tables (put_admin_users_id_role now rq user flag db)).
Proof.
  unfold roles_valid, put_admin_users_id_role. intros Hdb.
  destruct (includes ROLES (Body.newRole (Request.body rq))) eqn:Hinc;
    cbn [negb]; [|done].
  apply includes_ROLES in Hinc as (s & -> & Hs).
  destruct (findIndex _ (DB.users db)) as [i|]; [|done].
  destruct (DB.users db !! i) as [u|]; [|done].
  cbn [tables DB.with_users DB.users]. by apply Forall_insert.
Qed.

Lemma put_posts_id_users now rq user flag db :
  DB.users (tables (put_posts_id now rq user flag db)) = DB.users db.
Proof.
  unfold put_posts_id. destruct (findIndex _ (DB.posts db)) as [i|]; [|done].
  destruct (DB.posts db !! i) as [post|]; [|done].
  destruct flag, (Z.eqb (Post.authorId post) (Identity.id user)); done.
Qed.

Lemma delete_posts_id_users now rq user flag db :
  DB.users (tables (delete_posts_id now rq user flag db)) = DB.users db.
Proof.
  unfold delete_posts_id. destruct (findIndex _ (DB.posts db)) as [i|]; [|done].
  destruct (DB.posts db !! i) as [post|]; [|done].
  destruct flag, (Z.eqb (Post.authorId post) (Identity.id user)); done.
Qed.

Lemma app_roles_valid r now rq db :
  roles_valid db → roles_valid (tables (app r now rq db)).
Proof.
  intros Hdb. destruct r; unfold app.
  - by apply register_roles_valid.
  - by apply guarded_tables.
  - by apply guarded_tables.
  - apply guarded_tables; [done|]. intros user flag.
    unfold roles_valid. by rewrite put_posts_id_users.
  - apply guarded_tables; [done|]. intros user flag.
    unfold roles_valid. by rewrite delete_posts_id_users.
  - by apply guarded_tables.
  - apply guarded_tables; [done|]. intros user flag.
    by apply change_role_roles_valid.
Qed.

Lemma initial_roles_valid now : roles_valid (initial now).
Proof.
  unfold roles_valid, initial, seedDatabase, ROLES. cbn [DB.users].
  repeat constructor; set_solver.
Qed.

(** C2 (amended): a role change to a value outside ADMIN/EDITOR/VIEWER is
    turned down with the tables as they were; a registration with such a
    value is not turned down but handled exactly as a registration as VIEWER;
    either way every role in the user table stays in the closed set. *)
Theorem unknown_role_at_assignment now rq db :
  (includes ROLES (Body.newRole (Request.body rq)) = false →
   tables (app PUT_admin_users_id_role now rq db) = db ∧
   status (res (app PUT_admin_users_id_role now rq db)) ≠ 200) ∧
  (includes ROLES (Body.role (Request.body rq)) = false →
   app POST_auth_register now rq db = app POST_auth_register now (as_viewer rq) db) ∧
  (roles_valid db →
   roles_valid (tables (app POST_auth_register now rq db)) ∧
   roles_valid (tables (app PUT_admin_users_id_role now rq db))).
Proof.
  split_and!.
  - intros Hinv. unfold app.
    destruct (guarded_inv "admin" "manage_roles" false put_admin_users_id_role now rq db)
      as [(user & flag & _ & _ & ->)|(r & out & -> & Hs & _)].
    + rewrite put_admin_users_id_role_invalid by done. done.
    + cbn [tables res]. split; [done|]. by destruct Hs as [->|[->| ->]].
  - intros Hinv. by apply register_as_viewer.
  - intros Hdb. split; by apply app_roles_valid.
Qed.

(** C2 (as stated) fails at user creation: registering with the role
    SUPERUSER is answered 200 and the user is stored as a VIEWER. *)
Lemma register_replaces_unknown_role :
  let r := app POST_auth_register 1000 register_superuser (initial 0) in
  includes ROLES (Body.role (Request.body register_superuser)) = false ∧
  status (res r) = 200 ∧
  length (DB.users (tables r)) = S (length (DB.users (initial 0))) ∧
  last (DB.users (tables r)) =
    Some (User.mk 5 "mallory" (hashPassword "secret") "VIEWER"
            (VStr "mallory@example.com")).
Proof. vm_compute. repeat split. Qed.

(** ** Post updates *)

(** An update that answers 200 found the post and replaced it in place. *)
Lemma put_route_success now rq db :
  status (res (app PUT_posts_id now rq db)) = 200 →
  ∃ i old,
    find_post rq db = Some i ∧ DB.posts db !! i = Some old ∧
    app PUT_posts_id now rq db =
      Result
        (DB.with_posts (<[i := updated_post now (Request.body rq) old]> (DB.posts db)) db)
        (send (PostObj (updated_post now (Request.body rq) old))) [].
Proof.
  unfold app.
  destruct (guarded_inv "posts" "update" true put_posts_id now rq db)
    as [(user & flag & _ & _ & ->)|(r & out & -> & Hs & _)].
  - destruct (find_post rq db) as [i|] eqn:Hi.
    + destruct (find_post_Some _ _ _ Hi) as (old & Hold & _).
      rewrite (put_posts_id_found _ _ _ _ _ _ _ Hi Hold).
      destruct (flag && negb (Z.eqb (Post.authorId old) (Identity.id user)));
        [done|]. intros _. exists i, old. done.
    + rewrite (put_posts_id_missing _ _ _ _ _ Hi). done.
  - cbn [res]. intros E. rewrite E in Hs. by destruct Hs as [?|[?|?]].
Qed.

(** C9: a post update that succeeds keeps the post's id, authorId, author
    and createdAt, leaves every other post, the number of posts, the users
    and the id counters as they were. *)
Theorem update_frame now rq db :
  let r := app PUT_posts_id now rq db in
  status (res r) = 200 →
  ∃ i old new,
    find_post rq db = Some i ∧
    DB.posts db !! i = Some old ∧
    DB.posts (tables r) !! i = Some new ∧
    Post.id new = Post.id old ∧
    Post.authorId new = Post.authorId old ∧
    Post.author new = Post.author old ∧
    Post.createdAt new = Post.createdAt old ∧
    (∀ j, j ≠ i → DB.posts (tables r) !! j = DB.posts db !! j) ∧
    length (DB.posts (tables r)) = length (DB.posts db) ∧
    DB.users (tables r) = DB.users db ∧
    DB.nextUserId (tables r) = DB.nextUserId db ∧
    DB.nextPostId (tables r) = DB.nextPostId db.
Proof.
  intros r. subst r. intros (i & old & Hi & Hold & ->)%put_route_success.
  exists i, old, (updated_post now (Request.body rq) old).
  cbn [tables DB.with_posts DB.posts DB.users DB.nextUserId DB.nextPostId].
  split_and!; try done.
  - apply list_lookup_insert_eq. by eapply lookup_lt_Some.
  - intros j Hj. by apply list_lookup_insert_ne.
  - apply length_insert.
Qed.

(** editor1 retitles the draft it wrote. *)
Lemma update_frame_seeded :
  let r := app PUT_posts_id 1000 (retitle editor1 2 "Draft 2") (initial 0) in
  ∃ i old new,
    find_post (retitle editor1 2 "Draft 2") (initial 0) = Some i ∧
    DB.posts (initial 0) !! i = Some old ∧
    DB.posts (tables r) !! i = Some new ∧
    Post.id new = Post.id old ∧
    Post.authorId new = Post.authorId old ∧
    Post.author new = Post.author old ∧
    Post.createdAt new = Post.createdAt old ∧
    (∀ j, j ≠ i → DB.posts (tables r) !! j = DB.posts (initial 0) !! j) ∧
    length (DB.posts (tables r)) = length (DB.posts (initial 0)) ∧
    DB.users (tables r) = DB.users (initial 0) ∧
    DB.nextUserId (tables r) = DB.nextUserId (initial 0) ∧
    DB.nextPostId (tables r) = DB.nextPostId (initial 0).
Proof.
  apply (update_frame 1000 (retitle editor1 2 "Draft 2") (initial 0)).
  vm_compute. reflexivity.
Defined.

(** C10: in a post update that succeeds, the stored title is the supplied one
    when that is truthy and the previous one otherwise, and likewise for the
    content; a field that is left out or is the empty string keeps its
    previous value. *)
Theorem update_keeps_falsy_fields now rq db :
  let r := app PUT_posts_id now rq db in
  let b := Request.body rq in
  status (res r) = 200 →
  ∃ i old new,
    find_post rq db = Some i ∧
    DB.posts db !! i = Some old ∧
    DB.posts (tables r) !! i = Some new ∧
    res r = send (PostObj new) ∧
    Post.title new = (if truthy (Body.title b) then Body.title b else Post.title old) ∧
    Post.content new =
      (if truthy (Body.content b) then Body.content b else Post.content old) ∧
    (Body.title b = VUndefined ∨ Body.title b = VStr "" →
     Post.title new = Post.title old) ∧
    (Body.content b = VUndefined ∨ Body.content b = VStr "" →
     Post.content new = Post.content old).
Proof.
  intros r b. subst r b. intros (i & old & Hi & Hold & ->)%put_route_success.
  exists i, old, (updated_post now (Request.body rq) old).
  cbn [tables res DB.with_posts DB.posts updated_post Post.title Post.content].
  unfold js_or. split_and!; try done.
  - apply list_lookup_insert_eq. by eapply lookup_lt_Some.
  - by intros [-> | ->].
  - by intros [-> | ->].
Qed.

(** editor1 retitles its draft and sends an empty content. *)
Lemma update_keeps_falsy_fields_seeded :
  let r := app PUT_posts_id 1000 (retitle editor1 2 "Draft 2") (initial 0) in
  let b := Request.body (retitle editor1 2 "Draft 2") in
  ∃ i old new,
    find_post (retitle editor1 2 "Draft 2") (initial 0) = Some i ∧
    DB.posts (initial 0) !! i = Some old ∧
    DB.posts (tables r) !! i = Some new ∧
    res r = send (PostObj new) ∧
    Post.title new = (if truthy (Body.title b) then Body.title b else Post.title old) ∧
    Post.content new =
      (if truthy (Body.content b) then Body.content b else Post.content old) ∧
    (Body.title b = VUndefined ∨ Body.title b = VStr "" →
     Post.title new = Post.title old) ∧
    (Body.content b = VUndefined ∨ Body.content b = VStr "" →
     Post.content new = Post.content old).
Proof.
  apply (update_keeps_falsy_fields 1000 (retitle editor1 2 "Draft 2") (initial 0)).
  vm_compute. reflexivity.
Defined.

Example empty_content_is_kept :
  let r := app PUT_posts_id 1000 (retitle editor1 2 "Draft 2") (initial 0) in
  res r =
    send (PostObj (Post.mk 2 (VStr "Draft 2") (VStr "Content only Editor 1 can modify.")
                     2 "editor1" 0 (Some 1000))).
Proof. vm_compute. reflexivity. Qed.

(** ** Runs of the server *)

Lemma app_slot_step r now rq db i u :
  DB.users db !! i = Some u → slot_step r rq i u (tables (app r now rq db)).
Proof.
  intros Hu.
  assert (∀ db', DB.users db' = DB.users db → slot_step r rq i u db') as Hsame.
  { intros db' E. exists u. rewrite E. auto. }
  destruct r; unfold app; try apply guarded_tables; try (by apply Hsame);
    try (intros user flag).
  - unfold post_auth_register.
    destruct (Body.username (Request.body rq)) as [username|]; [|by apply Hsame].
    destruct (Body.password (Request.body rq)) as [password|]; [|by apply Hsame].
    destruct (String.eqb username "" || String.eqb password ""); [by apply Hsame|].
    destruct (existsb _ (DB.users db)); [by apply Hsame|].
    exists u. cbn [tables DB.users]. split; [|auto].
    apply lookup_app_l_Some. done.
  - by apply Hsame.
  - by apply Hsame.
  - apply Hsame, put_posts_id_users.
  - apply Hsame, delete_posts_id_users.
  - by apply Hsame.
  - unfold put_admin_users_id_role.
    destruct (includes ROLES (Body.newRole (Request.body rq))) eqn:Hinc;
      cbn [negb]; [|by apply Hsame].
    apply includes_ROLES in Hinc as (s & Hnew & Hs). rewrite Hnew.
    destruct (findIndex _ (DB.users db)) as [j|]; [|by apply Hsame].
    destruct (DB.users db !! j) as [v|] eqn:Hv; [|by apply Hsame].
    cbn [tables DB.with_users DB.users string_of].
    destruct (decide (j = i)) as [->|Hne].
    + rewrite Hu in Hv. injection Hv as <-.
      exists (User.set_role s u). split; [|by auto].
      apply list_lookup_insert_eq. by eapply lookup_lt_Some.
    + exists u. split; [|by auto]. rewrite <- Hu. by apply list_lookup_insert_ne.
Qed.

(** However many requests are served, the user stored at an index keeps its
    id, and its role is the one it had or one that a role change asked for. *)
Lemma serve_slot arrivals db i u :
  DB.users db !! i = Some u →
  ∃ u', DB.users (serve arrivals db) !! i = Some u' ∧ User.id u' = User.id u ∧
        (User.role u' = User.role u ∨
         ∃ a, a ∈ arrivals ∧ target a = PUT_admin_users_id_role ∧
              Body.newRole (Request.body (request a)) = VStr (User.role u')).
Proof.
  revert db u. induction arrivals as [|a rest IH]; intros db u Hu; simpl.
  - exists u. auto.
  - destruct (app_slot_step (target a) (instant a) (request a) db i u Hu)
      as (v & Hv & Hid & Hrole).
    destruct (IH _ _ Hv) as (u' & Hu' & Hid' & Hrole').
    exists u'. split; [done|]. split; [congruence|].
    destruct Hrole' as [E|(b & Hb & Ht & Hn)].
    + destruct Hrole as [E'|[Ht Hn]].
      * left. congruence.
      * right. exists a. rewrite E. split; [apply list_elem_of_here|done].
    + right. exists b. split; [by apply list_elem_of_further|done].
Qed.

Lemma serve_roles_valid arrivals db :
  roles_valid db → roles_valid (serve arrivals db).
Proof.
  revert db. induction arrivals as [|a rest IH]; intros db Hdb; simpl; [done|].
  by apply IH, app_roles_valid.
Qed.

(** * Further properties *)

(** ** Who the matrix lets do what *)

Lemma matrix_rows role :
  (role = "ADMIN" ∨ role = "EDITOR" ∨ role = "VIEWER") ∨ PERMISSIONS !! role = None.
Proof.
  destruct (PERMISSIONS !! role) as [p|] eqn:E; [left|by right].
  apply PERMISSIONS_Some in E as [E _]. unfold ROLES in E. set_solver.
Qed.

Ltac by_role role :=
  let E := fresh "E" in
  destruct (matrix_rows role) as [[->|[->| ->]]|E];
  [vm_compute; naive_solver..
  |unfold Spec.allows, Spec.allowsSelfScoped; rewrite !matrix_lookup, E;
   apply PERMISSIONS_None in E; unfold ROLES in E; set_solver].

Lemma allows_manage_roles role :
  Spec.allows role "admin" "manage_roles" = true ↔ role = "ADMIN".
Proof. by_role role. Qed.

Lemma allows_posts_create role :
  Spec.allows role "posts" "create" = true ↔ role = "ADMIN" ∨ role = "EDITOR".
Proof. by_role role. Qed.

Lemma allows_posts_read role :
  Spec.allows role "posts" "read" = true ↔ role ∈ ROLES.
Proof. unfold ROLES. rewrite !elem_of_cons, elem_of_nil. by_role role. Qed.

Lemma allows_users_read role :
  Spec.allows role "users" "read" = true ↔ role = "ADMIN" ∨ role = "EDITOR".
Proof. by_role role. Qed.

Lemma allows_posts_change role action :
  action = "update" ∨ action = "delete" →
  (Spec.allows role "posts" action = true ↔ role = "ADMIN") ∧
  (Spec.allowsSelfScoped role "posts" action = true ↔ role = "EDITOR").
Proof. intros [-> | ->]; split; by_role role. Qed.

(** ** What a token opens *)

Lemma guarded_allowed resource action isOwnerCheck h now rq user :
  sent_by user rq →
  Spec.allows (Identity.role user) resource action = true →
  guarded resource action isOwnerCheck h now rq = h now rq user false.
Proof.
  intros Hauth Ha. rewrite (guarded_Bearer _ _ _ _ _ _ _ Hauth).
  destruct (authorize_cases resource action isOwnerCheck now rq user)
    as [[Hr _]|[(_ & _ & ->)|[(_ & Ha' & _)|(_ & Ha' & _)]]];
    [|done|congruence..].
  destruct (unknown_role_no_grant _ resource action Hr). congruence.
Qed.

Lemma guarded_self resource action h now rq user :
  sent_by user rq →
  Spec.allows (Identity.role user) resource action = false →
  Spec.allowsSelfScoped (Identity.role user) resource action = true →
  guarded resource action true h now rq = h now rq user true.
Proof.
  intros Hauth Ha Hs. rewrite (guarded_Bearer _ _ _ _ _ _ _ Hauth).
  destruct (authorize_cases resource action true now rq user)
    as [[Hr _]|[(_ & Ha' & _)|[(_ & _ & _ & _ & ->)|(_ & _ & Hs' & _)]]];
    [|congruence|done|].
  - destruct (unknown_role_no_grant _ resource action Hr). congruence.
  - rewrite Hs in Hs'. done.
Qed.

Lemma guarded_denied resource action isOwnerCheck h now rq user db :
  sent_by user rq →
  Spec.allows (Identity.role user) resource action = false →
  isOwnerCheck && Spec.allowsSelfScoped (Identity.role user) resource action = false →
  tables (guarded resource action isOwnerCheck h now rq db) = db ∧
  status (res (guarded resource action isOwnerCheck h now rq db)) = 403.
Proof.
  intros Hauth Ha Hs. rewrite (guarded_Bearer _ _ _ _ _ _ _ Hauth).
  destruct (authorize_cases resource action isOwnerCheck now rq user)
    as [[_ ->]|[(_ & Ha' & _)|[(_ & _ & -> & Hs' & _)|(_ & _ & _ & b & o & -> & _)]]];
    [done|congruence| |done].
  rewrite Hs' in Hs. done.
Qed.

(** X2: a token whose role is neither ADMIN nor EDITOR changes nothing: on
    every route but the registration the tables come back as they were. *)
Theorem readers_never_write r now rq db user :
  sent_by user rq →
  Identity.role user ≠ "ADMIN" → Identity.role user ≠ "EDITOR" →
  r ≠ POST_auth_register →
  tables (app r now rq db) = db.
Proof.
  intros Hauth Hadmin Heditor Hr.
  pose proof (allows_posts_create (Identity.role user)) as Hc.
  pose proof (allows_manage_roles (Identity.role user)) as Hm.
  destruct (allows_posts_change (Identity.role user) "update" (or_introl eq_refl))
    as [Hu Hus].
  destruct (allows_posts_change (Identity.role user) "delete" (or_intror eq_refl))
    as [Hd Hds].
  destruct r; try done; unfold app.
  - refine (proj1 (guarded_denied _ _ _ _ _ _ user _ Hauth _ _)); [|done].
    apply not_true_is_false. intros [?|?]%Hc; done.
  - by apply guarded_tables.
  - refine (proj1 (guarded_denied _ _ _ _ _ _ user _ Hauth _ _)); [|cbn [andb]]; apply not_true_is_false.
    + by intros ?%Hu.
    + by intros ?%Hus.
  - refine (proj1 (guarded_denied _ _ _ _ _ _ user _ Hauth _ _)); [|cbn [andb]]; apply not_true_is_false.
    + by intros ?%Hd.
    + by intros ?%Hds.
  - by apply guarded_tables.
  - refine (proj1 (guarded_denied _ _ _ _ _ _ user _ Hauth _ _)); [|done].
    apply not_true_is_false. by intros ?%Hm.
Qed.

Lemma readers_never_write_viewer :
  tables (app POST_posts 1000 viewer_deletes (initial 0)) = initial 0.
Proof.
  apply (readers_never_write POST_posts 1000 viewer_deletes (initial 0) viewer);
    [reflexivity|discriminate..].
Defined.

Lemma authorize_Next resource action isOwnerCheck now rq user flag :
  authorize resource action isOwnerCheck now rq user = Next flag →
  (flag = false ∧ Spec.allows (Identity.role user) resource action = true) ∨
  (flag = true ∧ isOwnerCheck = true ∧
   Spec.allows (Identity.role user) resource action = false ∧
   Spec.allowsSelfScoped (Identity.role user) resource action = true).
Proof.
  intros E.
  destruct (authorize_cases resource action isOwnerCheck now rq user)
    as [[_ E']|[(_ & Ha & E')|[(_ & Ha & Ho & Hs & E')|(_ & _ & _ & b & o & E' & _)]]];
    rewrite E' in E; try discriminate E; injection E as <-; auto.
Qed.

Lemma admin_role_change_status now rq db user :
  sent_by user rq → Identity.role user = "ADMIN" →
  status (res (app PUT_admin_users_id_role now rq db)) =
    if negb (includes ROLES (Body.newRole (Request.body rq))) then 400
    else if find_user rq db is Some _ then 200 else 404.
Proof.
  intros Hauth Hrole. unfold app.
  rewrite (guarded_allowed _ _ _ _ _ _ user Hauth) by (by apply allows_manage_roles).
  unfold put_admin_users_id_role, find_user.
  destruct (includes ROLES (Body.newRole (Request.body rq))); cbn [negb]; [|done].
  destruct (findIndex _ (DB.users db)) as [i|] eqn:Hi; [|done].
  destruct (findIndex_Some _ _ _ Hi) as (u & -> & _). done.
Qed.

Lemma find_user_stored rq db :
  is_Some (find_user rq db) ↔
  ∃ u, u ∈ DB.users db ∧ Request.params_id rq = Some (User.id u).
Proof.
  unfold find_user. split.
  - intros [i (u & Hu & Hid)%findIndex_Some]. exists u.
    split; [by eapply list_elem_of_lookup_2|by apply strict_eq_true].
  - intros (u & Hin & Hid).
    destruct (findIndex _ (DB.users db)) as [i|] eqn:Hi; [by eexists|].
    rewrite findIndex_None in Hi. specialize (Hi u Hin).
    apply strict_eq_true in Hid. congruence.
Qed.

(** X3: only an ADMIN token changes a role.  With one, the new role is
    checked before the user is looked up: 400 for a role outside the closed
    set even when no user is stored under the requested id, 404 for a valid
    role and an id no stored user has, 200 for a valid role and the id of a
    stored user. *)
Theorem role_change_status now rq db :
  let r := app PUT_admin_users_id_role now rq db in
  let valid := includes ROLES (Body.newRole (Request.body rq)) in
  let stored :=
    ∃ u, u ∈ DB.users db ∧ Request.params_id rq = Some (User.id u) in
  (∀ user, sent_by user rq → Identity.role user = "ADMIN" →
     (valid = false → status (res r) = 400) ∧
     (valid = true → stored → status (res r) = 200) ∧
     (valid = true → ¬ stored → status (res r) = 404)) ∧
  (status (res r) = 200 →
   valid = true ∧ stored ∧ ∃ user, sent_by user rq ∧ Identity.role user = "ADMIN") ∧
  (tables r ≠ db → status (res r) = 200).
Proof.
  intros r valid stored. subst r valid stored.
  assert (∀ i, find_user rq db = Some i →
            ∃ u, u ∈ DB.users db ∧ Request.params_id rq = Some (User.id u)) as Hsome.
  { intros i Hi. apply find_user_stored. by eexists. }
  assert (find_user rq db = None →
            ¬ ∃ u, u ∈ DB.users db ∧ Request.params_id rq = Some (User.id u)) as Hnone.
  { intros Hi [i Hi']%find_user_stored. congruence. }
  unfold find_user in Hsome, Hnone. unfold app. split_and!.
  - intros user Hauth Hrole.
    rewrite (guarded_allowed _ _ _ _ _ _ user Hauth)
      by (by apply allows_manage_roles).
    unfold put_admin_users_id_role, find_user.
    destruct (includes ROLES (Body.newRole (Request.body rq))); cbn [negb];
      [|by split_and!].
    destruct (findIndex _ (DB.users db)) as [i|] eqn:Hi.
    + destruct (findIndex_Some _ _ _ Hi) as (u & -> & _).
      split_and!; try done. intros _ []. by eapply Hsome.
    + split_and!; try done. intros _ Hst. by destruct Hnone.
  - destruct (guarded_inv "admin" "manage_roles" false put_admin_users_id_role now rq db)
      as [(user & flag & Hauth & Hgate & ->)|(r & out & -> & Hs & _)].
    + unfold put_admin_users_id_role, find_user.
      destruct (includes ROLES (Body.newRole (Request.body rq))); cbn [negb]; [|done].
      destruct (findIndex _ (DB.users db)) as [i|] eqn:Hi; [|done].
      intros _. split_and!; [done|by eapply Hsome|]. exists user. split; [done|].
      apply authorize_Next in Hgate as [[_ Ha]|(_ & [=] & _)].
      by apply allows_manage_roles.
    + cbn [res]. intros E. rewrite E in Hs. by destruct Hs as [?|[?|?]].
  - destruct (guarded_inv "admin" "manage_roles" false put_admin_users_id_role now rq db)
      as [(user & flag & Hauth & Hgate & ->)|(r & out & -> & Hs & _)]; [|done].
    unfold put_admin_users_id_role.
    destruct (includes ROLES (Body.newRole (Request.body rq))); cbn [negb]; [|done].
    destruct (findIndex _ (DB.users db)) as [i|] eqn:Hi; [|done].
    destruct (findIndex_Some _ _ _ Hi) as (u & -> & _). done.
Qed.

(** The administrator sets the role of the seeded user 2: 200; of a user 99
    that is not stored: 404; and to a role outside the closed set: 400. *)
Lemma role_change_status_seeded :
  status (res (app PUT_admin_users_id_role 1000 demote_editor1 (initial 0))) = 200 ∧
  status (res (app PUT_admin_users_id_role 1000 demote_nobody (initial 0))) = 404 ∧
  status (res (app PUT_admin_users_id_role 1000 promote_to_superuser (initial 0)))
    = 400 ∧
  res (app PUT_admin_users_id_role 1000 demote_editor1 (initial 0)) =
    send (MessageObj "Role updated to VIEWER for user editor1.").
Proof.
  destruct (role_change_status 1000 demote_editor1 (initial 0)) as (Hstored & _).
  destruct (role_change_status 1000 demote_nobody (initial 0)) as (Hmissing & _).
  destruct (role_change_status 1000 promote_to_superuser (initial 0)) as (Hinvalid & _).
  split_and!.
  - apply (Hstored admin); [reflexivity..|].
    exists (User.mk 2 "editor1" (hashPassword "editor123") "EDITOR"
              (VStr "editor1@example.com")).
    split; [|reflexivity].
    unfold initial, seedDatabase. cbn [DB.users DB.nextUserId Z.add Pos.add Pos.succ].
    rewrite !elem_of_cons. auto.
  - apply (Hmissing admin); [reflexivity..|].
    intros (u & Hin & [= Hid]). revert Hin. unfold initial, seedDatabase.
    cbn [DB.users]. rewrite !elem_of_cons, elem_of_nil.
    intros [->|[->|[->|[->|[]]]]]; done.
  - apply (Hinvalid admin); reflexivity.
  - vm_compute. reflexivity.
Defined.

Lemma put_posts_id_status now rq user flag db :
  status (res (put_posts_id now rq user flag db)) = 200 ↔
  ∃ i post, find_post rq db = Some i ∧ DB.posts db !! i = Some post ∧
            (flag = false ∨ Post.authorId post = Identity.id user).
Proof.
  destruct (find_post rq db) as [i|] eqn:Hi.
  - destruct (find_post_Some _ _ _ Hi) as (post & Hp & _).
    rewrite (put_posts_id_found _ _ _ _ _ _ _ Hi Hp).
    destruct flag, (Z.eqb_spec (Post.authorId post) (Identity.id user)); cbn;
      (split; [intros; eexists _, _; split_and!; by eauto|]);
      try done; intros (? & ? & [= <-] & ? & ?); naive_solver.
  - rewrite (put_posts_id_missing _ _ _ _ _ Hi). split; [done|].
    by intros (? & ? & ? & _).
Qed.

Lemma delete_posts_id_status now rq user flag db :
  status (res (delete_posts_id now rq user flag db)) = 200 ↔
  ∃ i post, find_post rq db = Some i ∧ DB.posts db !! i = Some post ∧
            (flag = false ∨ Post.authorId post = Identity.id user).
Proof.
  destruct (find_post rq db) as [i|] eqn:Hi.
  - destruct (find_post_Some _ _ _ Hi) as (post & Hp & _).
    rewrite (delete_posts_id_found _ _ _ _ _ _ _ Hi Hp).
    destruct flag, (Z.eqb_spec (Post.authorId post) (Identity.id user)); cbn;
      (split; [intros; eexists _, _; split_and!; by eauto|]);
      try done; intros (? & ? & [= <-] & ? & ?); naive_solver.
  - rewrite (delete_posts_id_missing _ _ _ _ _ Hi). split; [done|].
    by intros (? & ? & ? & _).
Qed.

Lemma post_change_status action h now rq db :
  action = "update" ∨ action = "delete" →
  (∀ user flag,
     status (res (h now rq user flag db)) = 200 ↔
     ∃ i post, find_post rq db = Some i ∧ DB.posts db !! i = Some post ∧
               (flag = false ∨ Post.authorId post = Identity.id user)) →
  status (res (guarded "posts" action true h now rq db)) = 200 ↔
  ∃ user, sent_by user rq ∧ may_change user rq db.
Proof.
  intros Haction Hh.
  assert (∀ role, role = "EDITOR" → role ≠ "ADMIN") as Hne by (by intros ? ->).
  split.
  - destruct (guarded_inv "posts" action true h now rq db)
      as [(user & flag & Hauth & Hgate & ->)|(r & out & -> & Hs & _)].
    + intros (i & post & Hi & Hp & Hflag)%Hh. exists user. split; [done|].
      exists i, post. split_and!; [done..|].
      destruct (allows_posts_change (Identity.role user) action Haction) as [Ha Hs].
      apply authorize_Next in Hgate as [[_ H]|(-> & _ & _ & H)].
      * left. by apply Ha.
      * right. split; [by apply Hs|]. by destruct Hflag.
    + cbn [res]. intros E. rewrite E in Hs. by destruct Hs as [?|[?|?]].
  - intros (user & Hauth & i & post & Hi & Hp & Hrole).
    destruct (allows_posts_change (Identity.role user) action Haction) as [Ha Hs].
    destruct Hrole as [Hrole|[Hrole Hown]].
    + rewrite (guarded_allowed _ _ _ _ _ _ user Hauth) by (by apply Ha).
      apply Hh. eauto 10.
    + rewrite (guarded_self _ _ _ _ _ user Hauth).
      * apply Hh. eauto 10.
      * apply not_true_is_false. intros ?%Ha. by eapply Hne.
      * by apply Hs.
Qed.

Lemma post_change_needs_owner_or_admin_put now rq db :
  (∃ user, sent_by user rq ∧ may_change user rq db) →
  status (res (app PUT_posts_id now rq db)) = 200.
Proof.
  unfold app. apply post_change_status; [auto|].
  intros user flag. apply put_posts_id_status.
Qed.

Lemma post_change_needs_owner_or_admin_delete now rq db :
  (∃ user, sent_by user rq ∧ may_change user rq db) →
  status (res (app DELETE_posts_id now rq db)) = 200.
Proof.
  unfold app. apply post_change_status; [auto|].
  intros user flag. apply delete_posts_id_status.
Qed.

Lemma may_change_names user rq db :
  may_change user rq db ↔
  ∃ post, names_post rq db post ∧
    (Identity.role user = "ADMIN" ∨
     Identity.role user = "EDITOR" ∧ Post.authorId post = Identity.id user).
Proof.
  unfold may_change. split.
  - intros (i & post & Hi & Hp & H). exists post. split; [|done].
    apply names_post_found. eauto.
  - intros (post & (i & Hi & Hp)%names_post_found & H). eauto 10.
Qed.

(** X4: an update or a delete of a post succeeds exactly when the request
    carries a verified token, a post is stored under the requested id, and
    the token is an ADMIN's, or it is an EDITOR's and the first post stored
    under that id is the editor's own. *)
Theorem post_change_needs_owner_or_admin now rq db :
  let permitted :=
    ∃ user post, sent_by user rq ∧ names_post rq db post ∧
      (Identity.role user = "ADMIN" ∨
       Identity.role user = "EDITOR" ∧ Post.authorId post = Identity.id user) in
  (status (res (app PUT_posts_id now rq db)) = 200 ↔ permitted) ∧
  (status (res (app DELETE_posts_id now rq db)) = 200 ↔ permitted).
Proof.
  intros permitted.
  assert (permitted ↔ ∃ user, sent_by user rq ∧ may_change user rq db) as ->.
  { subst permitted. split.
    - intros (user & post & Hauth & H). exists user. split; [done|].
      apply may_change_names. eauto.
    - intros (user & Hauth & (post & H)%may_change_names). eauto. }
  unfold app. split; apply post_change_status; auto.
  - intros user flag. apply put_posts_id_status.
  - intros user flag. apply delete_posts_id_status.
Qed.

(** On the seeded tables the administrator may retitle the post of editor2
    and editor2 may delete it; editor1 may do neither. *)
Lemma post_change_needs_owner_or_admin_seeded :
  status (res (app PUT_posts_id 1000 (retitle admin 3 "Edited") (initial 0))) = 200 ∧
  status (res (app DELETE_posts_id 1000 editor2_deletes_own (initial 0))) = 200 ∧
  status (res (app PUT_posts_id 1000 (retitle editor1 3 "Mine now") (initial 0)))
    ≠ 200 ∧
  res (app DELETE_posts_id 1000 editor2_deletes_own (initial 0)) =
    send (MessageObj "Post deleted successfully.").
Proof.
  assert (∀ rq, Request.params_id rq = Some 3 →
            names_post rq (initial 0) editor2_article) as Hnames.
  { intros rq Hid.
    exists (take 2 (DB.posts (initial 0))), (drop 3 (DB.posts (initial 0))).
    split_and!; [reflexivity|exact Hid|].
    intros p [->|[->|[]%elem_of_nil]%elem_of_cons]%elem_of_cons; done. }
  destruct (post_change_needs_owner_or_admin 1000 (retitle admin 3 "Edited")
              (initial 0)) as [[_ Hput] _].
  destruct (post_change_needs_owner_or_admin 1000 editor2_deletes_own (initial 0))
    as [_ [_ Hdel]].
  destruct (post_change_needs_owner_or_admin 1000 (retitle editor1 3 "Mine now")
              (initial 0)) as [[Hnot _] _].
  split_and!.
  - apply Hput. exists admin, editor2_article.
    split_and!; [reflexivity|by apply Hnames|by left].
  - apply Hdel. exists editor2, editor2_article.
    split_and!; [reflexivity|by apply Hnames|by right].
  - intros (user & post & Hauth & (b & a & Hp & Hid & Hb) & Hrole)%Hnot.
    injection Hauth as <-. injection Hid as Hid.
    destruct Hrole as [[=]|[_ Hown]].
    assert (post = editor2_article) as ->; [|done].
    revert Hp. unfold initial, seedDatabase. cbn [DB.posts].
    destruct b as [|p1 [|p2 [|p3 [|p4 [|p5 b]]]]]; intros [=]; subst; done.
  - vm_compute. reflexivity.
Defined.

(** X5: creating a post takes an ADMIN or EDITOR token and nothing else: the
    title and the content are stored as they were sent, missing or not, under
    the id of the counter, with the caller as author; the post goes to the end
    of the table and the counter moves by one.  Any other token gets 403 and
    changes nothing. *)
Theorem create_post_outcome now rq db user :
  sent_by user rq →
  (Identity.role user = "ADMIN" ∨ Identity.role user = "EDITOR" →
   app POST_posts now rq db =
     Result
       (DB.mk (DB.users db) (DB.posts db ++ [created_post now rq user db])
          (DB.nextUserId db) (DB.nextPostId db + 1))
       (Response 201 (PostObj (created_post now rq user db))) []) ∧
  (¬ (Identity.role user = "ADMIN" ∨ Identity.role user = "EDITOR") →
   tables (app POST_posts now rq db) = db ∧
   status (res (app POST_posts now rq db)) = 403).
Proof.
  intros Hauth. unfold app. split; intros Hrole.
  - rewrite (guarded_allowed _ _ _ _ _ _ user Hauth)
      by (by apply allows_posts_create).
    done.
  - apply (guarded_denied _ _ _ _ _ _ user); [done| |done].
    apply not_true_is_false. by intros ?%allows_posts_create.
Qed.

(** editor1 posts a note without a content. *)
Lemma create_post_outcome_editor1 :
  let rq := retitle editor1 0 "Note" in
  (Identity.role editor1 = "ADMIN" ∨ Identity.role editor1 = "EDITOR" →
   app POST_posts 1000 rq (initial 0) =
     Result
       (DB.mk (DB.users (initial 0))
          (DB.posts (initial 0) ++ [created_post 1000 rq editor1 (initial 0)])
          (DB.nextUserId (initial 0)) (DB.nextPostId (initial 0) + 1))
       (Response 201 (PostObj (created_post 1000 rq editor1 (initial 0)))) []) ∧
  (¬ (Identity.role editor1 = "ADMIN" ∨ Identity.role editor1 = "EDITOR") →
   tables (app POST_posts 1000 rq (initial 0)) = initial 0 ∧
   status (res (app POST_posts 1000 rq (initial 0))) = 403).
Proof.
  apply (create_post_outcome 1000 (retitle editor1 0 "Note") (initial 0) editor1).
  reflexivity.
Defined.

(** ** Identifiers stay fresh *)

Lemma fmap_insert_same {A B} (f : A → B) (l : list A) i x y :
  l !! i = Some x → f y = f x → f <$> <[i:=y]> l = f <$> l.
Proof.
  intros Hx Hf. rewrite list_fmap_insert, Hf. apply list_insert_id.
  by rewrite list_lookup_fmap, Hx.
Qed.

Lemma NoDup_snoc_fresh {A} (f : A → Z) (l : list A) n :
  NoDup (f <$> l) → Forall (λ x, f x < n) l → NoDup ((f <$> l) ++ [n]).
Proof.
  intros Hl Hlt. apply NoDup_app. split_and!; [done| |apply NoDup_singleton].
  intros x (y & -> & Hy)%list_elem_of_fmap Hn%list_elem_of_singleton.
  rewrite Forall_forall in Hlt. specialize (Hlt _ Hy). simpl in Hlt. lia.
Qed.

Lemma existsb_username_false (us : list User.t) name :
  existsb (λ u, String.eqb (User.username u) name) us = false →
  name ∉ User.username <$> us.
Proof.
  intros Hex (u & -> & Hu)%list_elem_of_fmap.
  assert (existsb (λ v, String.eqb (User.username v) (User.username u)) us = true);
    [|congruence].
  apply existsb_exists. exists u. split; [by apply list_elem_of_In|].
  apply String.eqb_refl.
Qed.

Lemma register_ids_fresh rq db :
  ids_fresh db → ids_fresh (tables (post_auth_register rq db)).
Proof.
  intros Hdb. unfold post_auth_register.
  destruct (Body.username (Request.body rq)) as [username|]; [|done].
  destruct (Body.password (Request.body rq)) as [password|]; [|done].
  destruct (String.eqb username "" || String.eqb password ""); [done|].
  destruct (existsb _ (DB.users db)) eqn:Hex; [done|].
  destruct Hdb as (Hp & Hpn & Hu & Hun & Hname).
  unfold ids_fresh. simpl. rewrite !fmap_app. simpl.
  split_and!; [done|done|by apply NoDup_snoc_fresh| |].
  - apply Forall_app. split.
    + eapply Forall_impl; [done|]. intros u Hlt. cbn in Hlt. lia.
    + apply Forall_singleton. cbn. lia.
  - apply NoDup_app. split_and!; [done| |apply NoDup_singleton].
    intros x Hx ->%list_elem_of_singleton.
    by apply existsb_username_false in Hex.
Qed.

Lemma post_posts_ids_fresh now rq user flag db :
  ids_fresh db → ids_fresh (tables (post_posts now rq user flag db)).
Proof.
  intros (Hp & Hpn & Hu & Hun & Hname). unfold ids_fresh, post_posts.
  simpl. rewrite !fmap_app. simpl.
  split_and!; [by apply NoDup_snoc_fresh| |done..].
  apply Forall_app. split.
  - eapply Forall_impl; [done|]. intros p Hlt. cbn in Hlt. lia.
  - apply Forall_singleton. cbn. lia.
Qed.

Lemma put_posts_id_ids_fresh now rq user flag db :
  ids_fresh db → ids_fresh (tables (put_posts_id now rq user flag db)).
Proof.
  intros Hdb. destruct (find_post rq db) as [i|] eqn:Hi.
  - destruct (find_post_Some _ _ _ Hi) as (post & Hp & _).
    rewrite (put_posts_id_found _ _ _ _ _ _ _ Hi Hp).
    destruct (flag && negb (Z.eqb (Post.authorId post) (Identity.id user))); [done|].
    destruct Hdb as (Hn & Hpn & Hrest). unfold ids_fresh.
    cbn [tables DB.with_posts DB.users DB.posts DB.nextUserId DB.nextPostId].
    pose proof (Forall_lookup_1 _ _ _ _ Hpn Hp) as Hlt.
    destruct Hrest as (? & ? & ?). split_and!; [|by apply Forall_insert|done..].
    by rewrite (fmap_insert_same _ _ _ post).
  - by rewrite (put_posts_id_missing _ _ _ _ _ Hi).
Qed.

Lemma delete_posts_id_ids_fresh now rq user flag db :
  ids_fresh db → ids_fresh (tables (delete_posts_id now rq user flag db)).
Proof.
  intros Hdb. destruct (find_post rq db) as [i|] eqn:Hi.
  - destruct (find_post_Some _ _ _ Hi) as (post & Hp & _).
    rewrite (delete_posts_id_found _ _ _ _ _ _ _ Hi Hp).
    destruct (flag && negb (Z.eqb (Post.authorId post) (Identity.id user))); [done|].
    destruct Hdb as (Hn & Hpn & Hrest). unfold ids_fresh.
    cbn [tables DB.with_posts DB.users DB.posts DB.nextUserId DB.nextPostId].
    destruct Hrest as (? & ? & ?). split_and!; [|by apply Forall_delete|done..].
    rewrite list_fmap_delete. by eapply sublist_NoDup; [|apply sublist_delete].
  - by rewrite (delete_posts_id_missing _ _ _ _ _ Hi).
Qed.

Lemma change_role_ids_fresh now rq user flag db :
  ids_fresh db → ids_fresh (tables (put_admin_users_id_role now rq user flag db)).
Proof.
  intros Hdb. unfold put_admin_users_id_role.
  destruct (includes ROLES (Body.newRole (Request.body rq))); cbn [negb]; [|done].
  destruct (findIndex _ (DB.users db)) as [i|]; [|done].
  destruct (DB.users db !! i) as [u|] eqn:Hu; [|done].
  destruct Hdb as (Hp & Hpn & Hn & Hun & Hname). unfold ids_fresh.
  cbn [tables DB.with_users DB.users DB.posts DB.nextUserId DB.nextPostId].
  pose proof (Forall_lookup_1 _ _ _ _ Hun Hu) as Hlt.
  rewrite !(fmap_insert_same _ _ _ u) by done.
  split_and!; try done.
  by apply Forall_insert.
Qed.

Lemma app_ids_fresh r now rq db : ids_fresh db → ids_fresh (tables (app r now rq db)).
Proof.
  intros Hdb. destruct r; unfold app; try apply guarded_tables; try done;
    try intros user flag.
  - by apply register_ids_fresh.
  - by apply post_posts_ids_fresh.
  - by apply put_posts_id_ids_fresh.
  - by apply delete_posts_id_ids_fresh.
  - by apply change_role_ids_fresh.
Qed.

Lemma serve_ids_fresh arrivals db : ids_fresh db → ids_fresh (serve arrivals db).
Proof.
  revert db. induction arrivals as [|a rest IH]; intros db Hdb; simpl; [done|].
  by apply IH, app_ids_fresh.
Qed.

Lemma initial_ids_fresh now : ids_fresh (initial now).
Proof.
  unfold ids_fresh, initial, seedDatabase.
  cbn [DB.users DB.posts DB.nextUserId DB.nextPostId fmap list_fmap
         Post.id User.id User.username].
  split_and!; try (repeat constructor; try lia; set_solver).
Qed.

(** X6: whatever requests the seeded server has served, in whatever order,
    no two posts share an id, no two users share an id, every id is below
    the counter the next one comes from, and every stored role is ADMIN,
    EDITOR or VIEWER. *)
Theorem reachable_tables_sound arrivals now :
  ids_distinct (serve arrivals (initial now)) ∧
  roles_valid (serve arrivals (initial now)).
Proof.
  split.
  - destruct (serve_ids_fresh arrivals (initial now) (initial_ids_fresh now))
      as (Hp & Hpn & Hu & Hun & _).
    unfold ids_distinct. done.
  - apply serve_roles_valid, initial_roles_valid.
Qed.

(** After a role change and a registration the five users and the four posts
    have five and four distinct ids. *)
Lemma reachable_tables_sound_seeded :
  User.id <$> DB.users (serve demote_then_register (initial 0)) = [1; 2; 3; 4; 5] ∧
  Post.id <$> DB.posts (serve demote_then_register (initial 0)) = [1; 2; 3; 4] ∧
  ids_distinct (serve demote_then_register (initial 0)) ∧
  roles_valid (serve demote_then_register (initial 0)).
Proof.
  split_and!; [reflexivity|reflexivity|..];
    apply (reachable_tables_sound demote_then_register 0).
Defined.

(** ** One post per id *)

Lemma findIndex_is_Some {A} (f : A → bool) (xs : list A) x :
  x ∈ xs → f x = true → is_Some (findIndex f xs).
Proof.
  intros Hx Hf. destruct (findIndex f xs) eqn:E; [done|].
  rewrite findIndex_None in E. rewrite (E x Hx) in Hf. done.
Qed.

Lemma find_post_unique rq db j post :
  NoDup (Post.id <$> DB.posts db) →
  DB.posts db !! j = Some post →
  Request.params_id rq = Some (Post.id post) →
  find_post rq db = Some j.
Proof.
  intros Hnd Hj Hid. unfold find_post. rewrite Hid.
  destruct (findIndex_is_Some (λ p, strict_eq (Post.id p) (Some (Post.id post)))
              (DB.posts db) post) as [i Hi].
  { by eapply list_elem_of_lookup_2. }
  { apply Z.eqb_refl. }
  rewrite Hi. f_equal.
  destruct (findIndex_Some _ _ _ Hi) as (p & Hp & Heq). apply Z.eqb_eq in Heq.
  eapply (NoDup_lookup _ _ _ _ Hnd).
  - by rewrite list_lookup_fmap, Hp.
  - by rewrite list_lookup_fmap, Hj, Heq.
Qed.

Lemma elem_of_delete_NoDup {A} (f : A → Z) (l : list A) i x y :
  NoDup (f <$> l) → l !! i = Some x →
  y ∈ delete i l ↔ y ∈ l ∧ f y ≠ f x.
Proof.
  intros Hnd Hx. rewrite delete_take_drop.
  rewrite <- (take_drop_middle l i x Hx) in Hnd at 1.
  rewrite <- (take_drop_middle l i x Hx) at 3.
  rewrite fmap_app, fmap_cons in Hnd.
  apply NoDup_app in Hnd as (_ & Hleft & Hright).
  apply NoDup_cons in Hright as [Hright _].
  rewrite !elem_of_app, elem_of_cons. split.
  - intros [Hy|Hy].
    + split; [auto|]. intros E. apply (Hleft (f y)).
      * by apply list_elem_of_fmap_2.
      * rewrite E. apply list_elem_of_here.
    + split; [auto|]. intros E. apply Hright. rewrite <- E.
      by apply list_elem_of_fmap_2.
  - intros [[Hy|[->|Hy]] Hne]; [auto|done|auto].
Qed.

(** X7: on tables whose post ids are distinct, a delete that succeeds removes
    the post with the requested id and no other: afterwards no post has that
    id, every other post is still there, the users and the counters are as
    before, one post less is stored, and the same request sent again is
    answered 404. *)
Theorem delete_removes_the_post now rq db :
  ids_fresh db →
  status (res (app DELETE_posts_id now rq db)) = 200 →
  let db' := tables (app DELETE_posts_id now rq db) in
  ¬ post_exists (Request.params_id rq) db' ∧
  (∀ p, p ∈ DB.posts db' ↔
        p ∈ DB.posts db ∧ strict_eq (Post.id p) (Request.params_id rq) = false) ∧
  S (length (DB.posts db')) = length (DB.posts db) ∧
  DB.users db' = DB.users db ∧
  DB.nextUserId db' = DB.nextUserId db ∧
  DB.nextPostId db' = DB.nextPostId db ∧
  ∀ now', status (res (app DELETE_posts_id now' rq db')) = 404.
Proof.
  intros (Hnd & _) Hok db'. subst db'. revert Hok. unfold app.
  destruct (guarded_inv "posts" "delete" true delete_posts_id now rq db)
    as [(user & flag & Hauth & Hgate & ->)|(r & out & -> & Hs & _)].
  2: { cbn [res]. intros E. rewrite E in Hs. by destruct Hs as [?|[?|?]]. }
  intros Hok.
  destruct (proj1 (delete_posts_id_status _ _ _ _ _) Hok) as (i & post & Hi & Hp & _).
  revert Hok. rewrite (delete_posts_id_found _ _ _ _ _ _ _ Hi Hp).
  destruct (flag && negb (Z.eqb (Post.authorId post) (Identity.id user))); [done|].
  intros _. cbn [tables DB.with_posts DB.posts DB.users DB.nextUserId DB.nextPostId].
  destruct (findIndex_Some _ _ _ Hi) as (post' & Hp' & Hid).
  rewrite Hp in Hp'. injection Hp' as <-.
  assert (∀ p, p ∈ delete i (DB.posts db) ↔
               p ∈ DB.posts db ∧
               strict_eq (Post.id p) (Request.params_id rq) = false) as Hmem.
  { intros p. rewrite (elem_of_delete_NoDup Post.id _ _ post) by done.
    unfold strict_eq in *. destruct (Request.params_id rq) as [m|]; [|done].
    apply Z.eqb_eq in Hid as <-. by rewrite Z.eqb_neq. }
  assert (¬ post_exists (Request.params_id rq)
            (DB.with_posts (delete i (DB.posts db)) db)) as Hgone.
  { intros (p & Hin & Hid'). cbn [DB.with_posts DB.posts] in Hin.
    apply Hmem in Hin as [_ Hin]. congruence. }
  split_and!; try done.
  - rewrite length_delete by eauto. apply lookup_lt_Some in Hp. lia.
  - intros now'. rewrite (guarded_Bearer _ _ _ _ _ _ _ Hauth).
    replace (authorize "posts" "delete" true now' rq user) with (@Next bool flag).
    + apply find_post_None in Hgone.
      by rewrite (delete_posts_id_missing _ _ _ _ _ Hgone).
    + apply authorize_Next in Hgate as [[-> Ha]|(-> & _ & Ha & Hs)].
      * destruct (authorize_cases "posts" "delete" true now' rq user)
          as [[Hr _]|[(_ & _ & ->)|[(_ & Ha' & _)|(_ & Ha' & _)]]];
          [|done|congruence..].
        destruct (unknown_role_no_grant _ "posts" "delete" Hr). congruence.
      * destruct (authorize_cases "posts" "delete" true now' rq user)
          as [[Hr _]|[(_ & Ha' & _)|[(_ & _ & _ & _ & ->)|(_ & _ & Hs' & _)]]];
          [|congruence|done|].
        -- destruct (unknown_role_no_grant _ "posts" "delete" Hr). congruence.
        -- rewrite Hs in Hs'. done.
Qed.

(** editor2 deletes the article it wrote. *)
Lemma delete_removes_the_post_seeded :
  let db' := tables (app DELETE_posts_id 1000 editor2_deletes_own (initial 0)) in
  ¬ post_exists (Request.params_id editor2_deletes_own) db' ∧
  (∀ p, p ∈ DB.posts db' ↔
        p ∈ DB.posts (initial 0) ∧
        strict_eq (Post.id p) (Request.params_id editor2_deletes_own) = false) ∧
  S (length (DB.posts db')) = length (DB.posts (initial 0)) ∧
  DB.users db' = DB.users (initial 0) ∧
  DB.nextUserId db' = DB.nextUserId (initial 0) ∧
  DB.nextPostId db' = DB.nextPostId (initial 0) ∧
  ∀ now', status (res (app DELETE_posts_id now' editor2_deletes_own db')) = 404.
Proof.
  apply (delete_removes_the_post 1000 editor2_deletes_own (initial 0)).
  - apply initial_ids_fresh.
  - vm_compute. reflexivity.
Defined.

Lemma own_post_found rq db user post :
  ids_fresh db →
  sent_by user rq →
  Identity.role user = "ADMIN" ∨ Identity.role user = "EDITOR" →
  post ∈ DB.posts db →
  Post.authorId post = Identity.id user →
  Request.params_id rq = Some (Post.id post) →
  ∃ j, DB.posts db !! j = Some post ∧ find_post rq db = Some j ∧
       may_change user rq db.
Proof.
  intros (Hnd & _) Hauth Hrole [j Hj]%list_elem_of_lookup_1 Hown Hid.
  pose proof (find_post_unique rq db j post Hnd Hj Hid) as Hi.
  exists j. split_and!; [done..|].
  exists j, post. split_and!; [done..|]. destruct Hrole; auto.
Qed.

Lemma own_post_updated now rq db user post :
  ids_fresh db →
  sent_by user rq →
  Identity.role user = "ADMIN" ∨ Identity.role user = "EDITOR" →
  post ∈ DB.posts db →
  Post.authorId post = Identity.id user →
  Request.params_id rq = Some (Post.id post) →
  ∃ j, DB.posts db !! j = Some post ∧
       app PUT_posts_id now rq db =
         Result
           (DB.with_posts
              (<[j := updated_post now (Request.body rq) post]> (DB.posts db)) db)
           (send (PostObj (updated_post now (Request.body rq) post))) [].
Proof.
  intros Hdb Hauth Hrole Hin Hown Hid.
  destruct (own_post_found rq db user post) as (j & Hj & Hi & Hmay); try done.
  assert (status (res (app PUT_posts_id now rq db)) = 200) as Hput.
  { apply post_change_needs_owner_or_admin_put. eauto. }
  apply put_route_success in Hput as (i & old & Hi' & Hold & ->).
  rewrite Hi in Hi'. injection Hi' as <-. rewrite Hj in Hold. injection Hold as <-.
  eauto.
Qed.

(** X8: on tables whose post ids are distinct, an ADMIN or EDITOR who is the
    author of a post can always update and delete it, and the update lands on
    that very post: the stored post is the old one with the fields of the
    request and the instant of the update. *)
Theorem author_can_change_own_post now rq db user post :
  ids_fresh db →
  sent_by user rq →
  Identity.role user = "ADMIN" ∨ Identity.role user = "EDITOR" →
  post ∈ DB.posts db →
  Post.authorId post = Identity.id user →
  Request.params_id rq = Some (Post.id post) →
  status (res (app PUT_posts_id now rq db)) = 200 ∧
  status (res (app DELETE_posts_id now rq db)) = 200 ∧
  res (app PUT_posts_id now rq db) =
    send (PostObj (updated_post now (Request.body rq) post)) ∧
  updated_post now (Request.body rq) post ∈ DB.posts (tables (app PUT_posts_id now rq db)) ∧
  post ∉ DB.posts (tables (app DELETE_posts_id now rq db)).
Proof.
  intros Hdb Hauth Hrole Hin Hown Hid.
  destruct (own_post_found rq db user post) as (j & Hj & Hi & Hmay); try done.
  destruct (own_post_updated now rq db user post) as (j' & Hj' & Hput); try done.
  assert (status (res (app DELETE_posts_id now rq db)) = 200) as Hdel.
  { apply post_change_needs_owner_or_admin_delete. eauto. }
  rewrite Hput. cbn [res tables DB.with_posts DB.posts].
  split_and!; [done..| |].
  - eapply list_elem_of_lookup_2.
    apply list_lookup_insert_eq. by eapply lookup_lt_Some.
  - destruct Hdb as (Hnd & _). revert Hdel. unfold app.
    destruct (guarded_inv "posts" "delete" true delete_posts_id now rq db)
      as [(user' & flag & _ & _ & ->)|(r & out & -> & Hs & _)].
    2: { cbn [res]. intros E. rewrite E in Hs. by destruct Hs as [?|[?|?]]. }
    rewrite (delete_posts_id_found _ _ _ _ _ _ _ Hi Hj).
    destruct (flag && negb (Z.eqb (Post.authorId post) (Identity.id user'))); [done|].
    intros _. cbn [tables DB.with_posts DB.posts].
    rewrite (elem_of_delete_NoDup Post.id _ _ post) by done. by intros [_ ?].
Qed.

(** editor2 retitles, or deletes, the article it wrote. *)
Lemma author_can_change_own_post_seeded :
  let rq := editor2_retitles_own in
  status (res (app PUT_posts_id 1000 rq (initial 0))) = 200 ∧
  status (res (app DELETE_posts_id 1000 rq (initial 0))) = 200 ∧
  res (app PUT_posts_id 1000 rq (initial 0)) =
    send (PostObj (updated_post 1000 (Request.body rq) editor2_article)) ∧
  updated_post 1000 (Request.body rq) editor2_article
    ∈ DB.posts (tables (app PUT_posts_id 1000 rq (initial 0))) ∧
  editor2_article ∉ DB.posts (tables (app DELETE_posts_id 1000 rq (initial 0))).
Proof.
  apply (author_can_change_own_post 1000 editor2_retitles_own (initial 0) editor2
           editor2_article).
  - apply initial_ids_fresh.
  - reflexivity.
  - right. reflexivity.
  - apply (list_elem_of_lookup_2 _ 2%nat). reflexivity.
  - reflexivity.
  - reflexivity.
Defined.

Lemma create_post_stored_response now rq db user :
  sent_by user rq →
  Identity.role user = "ADMIN" ∨ Identity.role user = "EDITOR" →
  res (app POST_posts now rq db) = Response 201 (PostObj (created_post now rq user db)).
Proof.
  intros Hauth Hrole. unfold app.
  rewrite (guarded_allowed _ _ _ _ _ _ user Hauth) by (by apply allows_posts_create).
  done.
Qed.

Lemma created_post_stored now rq db user :
  sent_by user rq →
  Identity.role user = "ADMIN" ∨ Identity.role user = "EDITOR" →
  tables (app POST_posts now rq db) =
    DB.mk (DB.users db) (DB.posts db ++ [created_post now rq user db])
      (DB.nextUserId db) (DB.nextPostId db + 1).
Proof.
  intros Hauth Hrole. unfold app.
  rewrite (guarded_allowed _ _ _ _ _ _ user Hauth) by (by apply allows_posts_create).
  done.
Qed.

(** X9: a post that an ADMIN or EDITOR has just created can be updated and
    deleted with the same token under the id the creation answered, starting
    from tables whose ids are fresh; the update changes the created post. *)
Theorem created_post_is_changeable now rq db user now' rq' :
  ids_fresh db →
  sent_by user rq →
  Identity.role user = "ADMIN" ∨ Identity.role user = "EDITOR" →
  sent_by user rq' →
  Request.params_id rq' = Some (DB.nextPostId db) →
  let db1 := tables (app POST_posts now rq db) in
  res (app POST_posts now rq db) = Response 201 (PostObj (created_post now rq user db)) ∧
  res (app PUT_posts_id now' rq' db1) =
    send (PostObj (updated_post now' (Request.body rq') (created_post now rq user db))) ∧
  status (res (app DELETE_posts_id now' rq' db1)) = 200.
Proof.
  intros Hdb Hauth Hrole Hauth' Hid db1.
  assert (ids_fresh db1) as Hdb1 by (by apply app_ids_fresh).
  assert (created_post now rq user db ∈ DB.posts db1) as Hin.
  { subst db1. rewrite (created_post_stored _ _ _ user) by done.
    cbn [DB.posts]. apply elem_of_app. right. apply list_elem_of_here. }
  destruct (own_post_found rq' db1 user (created_post now rq user db))
    as (j & _ & _ & Hmay); try done.
  destruct (own_post_updated now' rq' db1 user (created_post now rq user db))
    as (j' & _ & Hput); try done.
  split_and!.
  - by apply create_post_stored_response.
  - by rewrite Hput.
  - apply post_change_needs_owner_or_admin_delete. eauto.
Qed.

(** editor1 posts a note, then edits it under the id it was given. *)
Lemma created_post_is_changeable_seeded :
  let db1 := tables (app POST_posts 1000 editor1_posts_note (initial 0)) in
  res (app POST_posts 1000 editor1_posts_note (initial 0)) =
    Response 201 (PostObj (created_post 1000 editor1_posts_note editor1 (initial 0))) ∧
  res (app PUT_posts_id 2000 editor1_edits_note db1) =
    send (PostObj (updated_post 2000 (Request.body editor1_edits_note)
                     (created_post 1000 editor1_posts_note editor1 (initial 0)))) ∧
  status (res (app DELETE_posts_id 2000 editor1_edits_note db1)) = 200.
Proof.
  apply (created_post_is_changeable 1000 editor1_posts_note (initial 0) editor1
           2000 editor1_edits_note).
  - apply initial_ids_fresh.
  - reflexivity.
  - right. reflexivity.
  - reflexivity.
  - reflexivity.
Defined.

(** ** Registration *)

Lemma register_success rq db :
  status (res (post_auth_register rq db)) = 200 →
  ∃ username password,
    Body.username (Request.body rq) = Some username ∧
    Body.password (Request.body rq) = Some password ∧
    username ≠ "" ∧ password ≠ "" ∧
    (username ∉ User.username <$> DB.users db) ∧
    post_auth_register rq db =
      Result
        (DB.mk (DB.users db ++ [registered_user rq db username password])
           (DB.posts db) (DB.nextUserId db + 1) (DB.nextPostId db))
        (send (AuthObj (token_of (registered_user rq db username password))
                 (User.role (registered_user rq db username password))
                 (DB.nextUserId db) username))
        [].
Proof.
  unfold post_auth_register.
  destruct (Body.username (Request.body rq)) as [username|]; [|done].
  destruct (Body.password (Request.body rq)) as [password|]; [|done].
  destruct (String.eqb_spec username ""); [done|].
  destruct (String.eqb_spec password ""); [done|]. cbn [orb].
  destruct (existsb _ (DB.users db)) eqn:Hex; [done|].
  intros _. exists username, password. split_and!; try done.
  by apply existsb_username_false.
Qed.




(** X11: registration asks for no token and stores the role it is sent when
    that is one of the closed set, ADMIN included: the token it answers with
    names the stored user, and one issued for the role ADMIN passes the check
    of the role-change route, for any later request. *)
Theorem registration_grants_requested_role now rq db role :
  status (res (app POST_auth_register now rq db)) = 200 →
  Body.role (Request.body rq) = VStr role → role ∈ ROLES →
  let db1 := tables (app POST_auth_register now rq db) in
  ∃ u,
    last (DB.users db1) = Some u ∧ User.role u = role ∧
    User.id u = DB.nextUserId db ∧
    sent (res (app POST_auth_register now rq db)) =
      AuthObj (token_of u) role (User.id u) (User.username u) ∧
    (role = "ADMIN" →
     ∀ now' rq', sent_by (token_of u) rq' →
       status (res (app PUT_admin_users_id_role now' rq' db1)) =
         if negb (includes ROLES (Body.newRole (Request.body rq'))) then 400
         else if find_user rq' db1 is Some _ then 200 else 404).
Proof.
  intros Hok Hrole Hin db1. subst db1. revert Hok. unfold app at 1 2 3 4.
  intros (username & password & Hname & _ & _ & _ & _ & ->)%register_success.
  cbn [tables res sent send DB.users].
  assert (User.role (registered_user rq db username password) = role) as Hr.
  { unfold registered_user. cbn [User.role]. rewrite Hrole.
    cbn [includes string_of]. by rewrite bool_decide_eq_true_2. }
  exists (registered_user rq db username password).
  rewrite last_snoc, Hr. split_and!; try done.
  intros -> now' rq' Hauth. by apply (admin_role_change_status _ _ _ _ Hauth).
Qed.

Lemma registration_grants_requested_role_admin :
  let db1 := tables (app POST_auth_register 1000 register_as_admin (initial 0)) in
  ∃ u,
    last (DB.users db1) = Some u ∧ User.role u = "ADMIN" ∧
    User.id u = DB.nextUserId (initial 0) ∧
    sent (res (app POST_auth_register 1000 register_as_admin (initial 0))) =
      AuthObj (token_of u) "ADMIN" (User.id u) (User.username u) ∧
    ("ADMIN" = "ADMIN" →
     ∀ now' rq', sent_by (token_of u) rq' →
       status (res (app PUT_admin_users_id_role now' rq' db1)) =
         if negb (includes ROLES (Body.newRole (Request.body rq'))) then 400
         else if find_user rq' db1 is Some _ then 200 else 404).
Proof.
  apply (registration_grants_requested_role 1000 register_as_admin (initial 0) "ADMIN").
  - reflexivity.
  - reflexivity.
  - apply list_elem_of_here.
Defined.

(** ** Login *)

Lemma find_username (us : list User.t) u :
  NoDup (User.username <$> us) → u ∈ us →
  List.find (λ v, String.eqb (User.username v) (User.username u)) us = Some u.
Proof.
  induction us as [|v us IH]; intros Hnd Hu; [by apply not_elem_of_nil in Hu|].
  rewrite fmap_cons in Hnd. apply NoDup_cons in Hnd as [Hv Hnd]. simpl.
  apply elem_of_cons in Hu as [->|Hu].
  - by rewrite String.eqb_refl.
  - destruct (String.eqb_spec (User.username v) (User.username u)) as [E|_].
    + destruct Hv. rewrite E. by apply list_elem_of_fmap_2.
    + by apply IH.
Qed.

Lemma find_Some_elem {A} (f : A → bool) (l : list A) x :
  List.find f l = Some x → x ∈ l ∧ f x = true.
Proof.
  intros [Hin Hf]%List.find_some. split; [by apply list_elem_of_In|done].
Qed.

Lemma find_login_user rq (us : list User.t) :
  List.find
    (λ u, match Body.username (Request.body rq) with
          | Some username => String.eqb (User.username u) username
          | None => false
          end) us =
  match Body.username (Request.body rq) with
  | Some username => List.find (λ u, String.eqb (User.username u) username) us
  | None => None
  end.
Proof.
  destruct (Body.username (Request.body rq)); [done|].
  induction us as [|u us IH]; [done|]. simpl. done.
Qed.

Section Login.
Variable compareSync : string → hash → bool.

(** X13: a login never writes and never prints.  It answers 200 only for a
    stored user under whose name it was sent and whose hash the password
    matches, with a token naming that user and its stored role; every other
    answer is the same 400.  A request that names no stored user is answered
    400 whether or not it carries a password; one that names a stored user
    and carries no password makes the comparison throw before the handler
    answers; one that carries a password is always answered. *)
Theorem login_outcomes rq db :
  (∀ r, post_auth_login compareSync rq db = Some r →
     tables r = db ∧ console r = [] ∧
     (res r = Response 400 (Text "Invalid username or password.") ∨
      ∃ u password,
        u ∈ DB.users db ∧
        credentials_of rq (User.username u) password ∧
        compareSync password (User.password u) = true ∧
        res r = welcome u)) ∧
  ((∀ u, u ∈ DB.users db →
      Body.username (Request.body rq) ≠ Some (User.username u)) →
   post_auth_login compareSync rq db =
     Some (Result db (Response 400 (Text "Invalid username or password.")) [])) ∧
  (∀ u, u ∈ DB.users db →
     Body.username (Request.body rq) = Some (User.username u) →
     Body.password (Request.body rq) = None →
     post_auth_login compareSync rq db = None) ∧
  (is_Some (Body.password (Request.body rq)) →
   is_Some (post_auth_login compareSync rq db)).
Proof.
  unfold post_auth_login. rewrite find_login_user.
  destruct (Body.username (Request.body rq)) as [username|] eqn:Hname.
  2: { split_and!; try done; try (by eexists).
       intros r [= <-]. split_and!; [done..|by left]. }
  destruct (List.find _ (DB.users db)) as [u|] eqn:Hfind.
  2: { split_and!; try done; try (by eexists).
       - intros r [= <-]. split_and!; [done..|by left].
       - intros u Hu [= ->] _.
         pose proof (List.find_none _ _ Hfind u (proj1 (list_elem_of_In _ _) Hu))
           as Hf.
         simpl in Hf. by rewrite String.eqb_refl in Hf. }
  apply find_Some_elem in Hfind as [Hu Heq]. apply String.eqb_eq in Heq as <-.
  assert ((∀ v, v ∈ DB.users db → Some (User.username u) ≠ Some (User.username v))
          → False) as Hknown.
  { intros H. by destruct (H u Hu). }
  destruct (Body.password (Request.body rq)) as [password|] eqn:Hpw.
  - destruct (compareSync password (User.password u)) eqn:Hcmp; cbn [negb].
    + split_and!; try done; try (by eexists); try (by intros ?%Hknown).
      intros r [= <-]. split_and!; [done..|]. right. exists u, password. done.
    + split_and!; try done; try (by eexists); try (by intros ?%Hknown).
      intros r [= <-]. split_and!; [done..|]. by left.
  - split_and!; try done; try (by intros ?%Hknown); by intros [??].
Qed.

Hypothesis compareSync_hash : ∀ password, compareSync password (hashPassword password) = true.

Lemma login_stored rq db u password :
  NoDup (User.username <$> DB.users db) →
  u ∈ DB.users db →
  credentials_of rq (User.username u) password →
  User.password u = hashPassword password →
  post_auth_login compareSync rq db = Some (Result db (welcome u) []).
Proof.
  intros Hnd Hu [Hname Hpw] Hhash. unfold post_auth_login.
  rewrite find_login_user, Hname, (find_username _ _ Hnd Hu), Hpw, Hhash,
    compareSync_hash. done.
Qed.

(** X12: registering and then logging in with the same name and password
    succeeds, on tables whose user names are distinct: the login answers 200
    with a token for the user the registration stored, the same payload the
    registration answered with. *)
Theorem login_after_register now rq db rq' username password :
  ids_fresh db →
  status (res (app POST_auth_register now rq db)) = 200 →
  credentials_of rq username password →
  credentials_of rq' username password →
  let db1 := tables (app POST_auth_register now rq db) in
  let u := registered_user rq db username password in
  sent (res (app POST_auth_register now rq db)) =
    AuthObj (token_of u) (User.role u) (User.id u) (User.username u) ∧
  post_auth_login compareSync rq' db1 = Some (Result db1 (welcome u) []).
Proof.
  intros Hdb Hok [Hname Hpw] Hcred db1 u.
  assert (ids_fresh db1) as (_ & _ & _ & _ & Hnd) by (by apply app_ids_fresh).
  subst db1 u. revert Hok Hnd. unfold app.
  intros (username' & password' & Hname' & Hpw' & _ & _ & _ & ->)%register_success.
  rewrite Hname in Hname'. injection Hname' as <-.
  rewrite Hpw in Hpw'. injection Hpw' as <-.
  cbn [tables res sent send DB.users]. intros Hnd. split; [done|].
  apply (login_stored _ _ _ password); [done| |done|done].
  apply elem_of_app. right. apply list_elem_of_here.
Qed.
End Login.

(** On the seeded tables: editor1 without a password gets no answer, an
    unknown name gets 400, and editor1 with the seeded password is let in. *)
Lemma login_outcomes_seeded :
  post_auth_login symbolic_compare login_without_password (initial 0) = None ∧
  post_auth_login symbolic_compare login_nobody (initial 0) =
    Some (Result (initial 0) (Response 400 (Text "Invalid username or password.")) []) ∧
  status <$> (res <$> post_auth_login symbolic_compare login_editor1 (initial 0))
    = Some 200.
Proof.
  destruct (login_outcomes symbolic_compare login_without_password (initial 0))
    as (_ & _ & Hthrows & _).
  destruct (login_outcomes symbolic_compare login_nobody (initial 0))
    as (_ & Hunknown & _).
  split_and!.
  - apply (Hthrows (User.mk 2 "editor1" (hashPassword "editor123") "EDITOR"
                      (VStr "editor1@example.com"))); [|reflexivity..].
    unfold initial, seedDatabase. cbn [DB.users DB.nextUserId Z.add Pos.add Pos.succ].
    rewrite !elem_of_cons. auto.
  - apply Hunknown. intros u Hin. revert Hin. unfold initial, seedDatabase.
    cbn [DB.users]. rewrite !elem_of_cons, elem_of_nil.
    intros [->|[->|[->|[->|[]]]]]; done.
  - reflexivity.
Defined.

Lemma symbolic_compare_hash password :
  symbolic_compare password (hashPassword password) = true.
Proof. apply String.eqb_refl. Qed.

(** mallory registers, then logs in. *)
Lemma login_after_register_seeded :
  let db1 := tables (app POST_auth_register 1000 register_superuser (initial 0)) in
  let u := registered_user register_superuser (initial 0) "mallory" "secret" in
  sent (res (app POST_auth_register 1000 register_superuser (initial 0))) =
    AuthObj (token_of u) (User.role u) (User.id u) (User.username u) ∧
  post_auth_login symbolic_compare login_mallory db1 = Some (Result db1 (welcome u) []).
Proof.
  apply (login_after_register symbolic_compare symbolic_compare_hash 1000
           register_superuser (initial 0) login_mallory "mallory" "secret").
  - apply initial_ids_fresh.
  - reflexivity.
  - split; reflexivity.
  - split; reflexivity.
Defined.

Lemma find_user_unique rq db j u :
  NoDup (User.id <$> DB.users db) →
  DB.users db !! j = Some u →
  Request.params_id rq = Some (User.id u) →
  find_user rq db = Some j.
Proof.
  intros Hnd Hj Hid. unfold find_user. rewrite Hid.
  destruct (findIndex_is_Some (λ v, strict_eq (User.id v) (Some (User.id u)))
              (DB.users db) u) as [i Hi].
  { by eapply list_elem_of_lookup_2. }
  { apply Z.eqb_refl. }
  rewrite Hi. f_equal.
  destruct (findIndex_Some _ _ _ Hi) as (v & Hv & Heq). apply Z.eqb_eq in Heq.
  eapply (NoDup_lookup _ _ _ _ Hnd).
  - by rewrite list_lookup_fmap, Hv.
  - by rewrite list_lookup_fmap, Hj, Heq.
Qed.

Lemma admin_role_change_tables now rq db admin i u role :
  sent_by admin rq → Identity.role admin = "ADMIN" →
  Body.newRole (Request.body rq) = VStr role → role ∈ ROLES →
  find_user rq db = Some i → DB.users db !! i = Some u →
  tables (app PUT_admin_users_id_role now rq db) =
    DB.with_users (<[i := User.set_role role u]> (DB.users db)) db.
Proof.
  intros Hauth Hadmin Hnew Hrole Hi Hu. unfold app.
  rewrite (guarded_allowed _ _ _ _ _ _ admin Hauth) by (by apply allows_manage_roles).
  unfold put_admin_users_id_role. unfold find_user in Hi. rewrite Hnew, Hi, Hu.
  cbn [includes string_of]. rewrite bool_decide_eq_true_2 by done. done.
Qed.

Section LoginAfterRoleChange.
Variable compareSync : string → hash → bool.
Hypothesis compareSync_hash : ∀ password, compareSync password (hashPassword password) = true.

(** X14: a role change is what the user's next login gets: on tables whose
    ids and user names are distinct, once an ADMIN has changed the role of a
    user, that user's login answers a token with the new role and the same id
    and name, where before it answered one with the old role. *)
Theorem role_change_reaches_next_login now rq db admin u role rq' password :
  ids_fresh db →
  u ∈ DB.users db →
  User.password u = hashPassword password →
  credentials_of rq' (User.username u) password →
  sent_by admin rq → Identity.role admin = "ADMIN" →
  Request.params_id rq = Some (User.id u) →
  Body.newRole (Request.body rq) = VStr role → role ∈ ROLES →
  let db1 := tables (app PUT_admin_users_id_role now rq db) in
  post_auth_login compareSync rq' db = Some (Result db (welcome u) []) ∧
  post_auth_login compareSync rq' db1 =
    Some (Result db1 (welcome (User.set_role role u)) []).
Proof.
  intros Hdb Hu Hhash Hcred Hauth Hadmin Hid Hnew Hrole db1.
  assert (ids_fresh db1) as (_ & _ & _ & _ & Hnd1) by (by apply app_ids_fresh).
  destruct Hdb as (_ & _ & Hids & _ & Hnd).
  apply list_elem_of_lookup_1 in Hu as Hj. destruct Hj as [j Hj].
  pose proof (find_user_unique rq db j u Hids Hj Hid) as Hi.
  split; [by apply (login_stored _ compareSync_hash _ _ _ password)|].
  apply (login_stored _ compareSync_hash _ _ _ password); [done| |done|done].
  subst db1. rewrite (admin_role_change_tables _ _ _ admin j u role) by done.
  cbn [DB.with_users DB.users]. eapply list_elem_of_lookup_2.
  apply list_lookup_insert_eq. by eapply lookup_lt_Some.
Qed.
End LoginAfterRoleChange.

(** admin turns editor1 into a VIEWER; editor1 logs in before and after. *)
Lemma role_change_reaches_next_login_seeded :
  let u := User.mk 2 "editor1" (hashPassword "editor123") "EDITOR"
             (VStr "editor1@example.com") in
  let db1 := tables (app PUT_admin_users_id_role 1000 demote_editor1 (initial 0)) in
  post_auth_login symbolic_compare login_editor1 (initial 0) =
    Some (Result (initial 0) (welcome u) []) ∧
  post_auth_login symbolic_compare login_editor1 db1 =
    Some (Result db1 (welcome (User.set_role "VIEWER" u)) []).
Proof.
  apply (role_change_reaches_next_login symbolic_compare symbolic_compare_hash 1000
           demote_editor1 (initial 0) admin
           (User.mk 2 "editor1" (hashPassword "editor123") "EDITOR"
              (VStr "editor1@example.com"))
           "VIEWER" login_editor1 "editor123").
  - apply initial_ids_fresh.
  - apply (list_elem_of_lookup_2 _ 1%nat). reflexivity.
  - reflexivity.
  - split; reflexivity.
  - reflexivity.
  - reflexivity.
  - reflexivity.
  - reflexivity.
  - unfold ROLES. set_solver.
Defined.

(** ** The client's check against the server's *)

Lemma client_matrix : Client.PERMISSIONS = PERMISSIONS.
Proof. reflexivity. Qed.

Lemma can_with_author token resource action now rq authorId :
  Client.can (Some (Client.logged_in token)) resource action (Some authorId) =
    Spec.resolve (decision (authorize resource action true now rq token))
      authorId (Identity.id token).
Proof.
  unfold Client.can, Client.logged_in, authorize.
  cbn [Client.role Client.userId]. rewrite client_matrix.
  destruct (PERMISSIONS !! Identity.role token) as [p|] eqn:E.
  - apply PERMISSIONS_Some in E as [Hrole Hdisj].
    destruct (String.eqb_spec (Identity.role token) "") as [Hempty|_].
    { rewrite Hempty in Hrole. unfold ROLES in Hrole. set_solver. }
    destruct (grants p resource action) eqn:G;
      destruct (grants p ("self_" +:+ resource) action) eqn:S.
    + exfalso. exact (Hdisj resource action G S).
    + done.
    + cbn. apply Z.eqb_sym.
    + done.
  - by destruct (String.eqb (Identity.role token) "").
Qed.

Lemma can_without_author token resource action now rq :
  Client.can (Some (Client.logged_in token)) resource action None =
    Spec.allowed (decision (authorize resource action false now rq token)).
Proof.
  unfold Client.can, Client.logged_in, authorize.
  cbn [Client.role Client.userId]. rewrite client_matrix.
  destruct (PERMISSIONS !! Identity.role token) as [p|] eqn:E.
  - apply PERMISSIONS_Some in E as [Hrole _].
    destruct (String.eqb_spec (Identity.role token) "") as [Hempty|_].
    { rewrite Hempty in Hrole. unfold ROLES in Hrole. set_solver. }
    by destruct (grants p resource action).
  - by destruct (String.eqb (Identity.role token) "").
Qed.

(** A route registered without the ownership flag runs its handler exactly
    when [can] without an author is true; otherwise it answers 403. *)
Lemma can_opens_route token resource action h now rq db :
  sent_by token rq →
  if Client.can (Some (Client.logged_in token)) resource action None
  then guarded resource action false h now rq db = h now rq token false db
  else status (res (guarded resource action false h now rq db)) = 403.
Proof.
  intros Hauth. rewrite (can_without_author token resource action now rq).
  rewrite (guarded_Bearer _ _ _ _ _ _ _ Hauth).
  destruct (authorize resource action false now rq token) as [flag|r out] eqn:E;
    cbn [decision Spec.allowed].
  - apply authorize_Next in E as [[-> _]|(_ & [=] & _)]. done.
  - by eapply authorize_Respond.
Qed.

(** X15: where the client asks [can] without an author (the form for a new
    post, the list of posts, the user list and the role panel), its answer
    for the state kept after a login is what the server then does with a
    request that carries the token: [can] is true exactly when the post is
    created, the posts are listed, the users are listed, and the role change
    is not refused with 403. *)
Theorem can_agrees_with_server token now rq db :
  sent_by token rq →
  let user := Some (Client.logged_in token) in
  (Client.can user "posts" "create" None = true ↔
   status (res (app POST_posts now rq db)) = 201) ∧
  (Client.can user "posts" "read" None = true ↔
   status (res (app GET_posts now rq db)) = 200) ∧
  (Client.can user "users" "read" None = true ↔
   status (res (app GET_admin_users now rq db)) = 200) ∧
  (Client.can user "admin" "manage_roles" None = true ↔
   status (res (app PUT_admin_users_id_role now rq db)) ≠ 403).
Proof.
  intros Hauth user. subst user. unfold app. split_and!.
  - pose proof (can_opens_route token "posts" "create" post_posts now rq db Hauth) as H.
    destruct (Client.can _ "posts" "create" None); rewrite H; done.
  - pose proof (can_opens_route token "posts" "read" get_posts now rq db Hauth) as H.
    destruct (Client.can _ "posts" "read" None); rewrite H; done.
  - pose proof (can_opens_route token "users" "read" get_admin_users now rq db Hauth)
      as H.
    destruct (Client.can _ "users" "read" None); rewrite H; done.
  - pose proof (can_opens_route token "admin" "manage_roles" put_admin_users_id_role
                  now rq db Hauth) as H.
    destruct (Client.can _ "admin" "manage_roles" None); rewrite H; [|done].
    split; [intros _|done]. unfold put_admin_users_id_role.
    repeat case_match; done.
Qed.

(** editor1 is offered the form and both lists, and not the role panel. *)
Lemma can_agrees_with_server_editor1 :
  let user := Some (Client.logged_in editor1) in
  Client.can user "posts" "create" None = true ∧
  status (res (app POST_posts 1000 editor1_reads (initial 0))) = 201 ∧
  status (res (app GET_posts 1000 editor1_reads (initial 0))) = 200 ∧
  status (res (app GET_admin_users 1000 editor1_reads (initial 0))) = 200 ∧
  Client.can user "admin" "manage_roles" None = false ∧
  status (res (app PUT_admin_users_id_role 1000 editor1_reads (initial 0))) = 403.
Proof.
  destruct (can_agrees_with_server editor1 1000 editor1_reads (initial 0) eq_refl)
    as (Hcreate & Hread & Husers & Hroles).
  split_and!; [reflexivity|by apply Hcreate|by apply Hread|by apply Husers
              |reflexivity|].
  destruct (decide (status (res (app PUT_admin_users_id_role 1000 editor1_reads
                                   (initial 0))) = 403)) as [E|E]; [exact E|].
  apply Hroles in E. discriminate E.
Defined.

(** X16: for a post that exists, the client offers the update (the delete)
    exactly when the server will accept it from that user; and nobody logged
    in is offered nothing. *)
Theorem buttons_match_server token now rq db i post :
  sent_by token rq →
  find_post rq db = Some i →
  DB.posts db !! i = Some post →
  let user := Some (Client.logged_in token) in
  (Client.can user "posts" "update" (Some (Post.authorId post)) = true ↔
   status (res (app PUT_posts_id now rq db)) = 200) ∧
  (Client.can user "posts" "delete" (Some (Post.authorId post)) = true ↔
   status (res (app DELETE_posts_id now rq db)) = 200) ∧
  ∀ resource action authorId, Client.can None resource action authorId = false.
Proof.
  intros Hauth Hi Hp user. subst user.
  pose proof (λ flag, handlers_settled now rq token flag db i post Hi Hp) as Hh.
  cbn zeta in Hh.
  assert (∀ final r, settled db final r → final = true ↔ status (res r) = 200) as Hs.
  { intros [] r [E _]; rewrite E; done. }
  split_and!; [| |done].
  - rewrite (can_with_author token "posts" "update" now rq).
    apply Hs. unfold app. apply route_settled; [done|]. intros flag. apply Hh.
  - rewrite (can_with_author token "posts" "delete" now rq).
    apply Hs. unfold app. apply route_settled; [done|]. intros flag. apply Hh.
Qed.

(** editor1 looks at the article of editor2. *)
Lemma buttons_match_server_seeded :
  let rq := retitle editor1 3 "Mine now" in
  let user := Some (Client.logged_in editor1) in
  (Client.can user "posts" "update" (Some (Post.authorId editor2_article)) = true ↔
   status (res (app PUT_posts_id 1000 rq (initial 0))) = 200) ∧
  (Client.can user "posts" "delete" (Some (Post.authorId editor2_article)) = true ↔
   status (res (app DELETE_posts_id 1000 rq (initial 0))) = 200) ∧
  ∀ resource action authorId, Client.can None resource action authorId = false.
Proof.
  apply (buttons_match_server editor1 1000 (retitle editor1 3 "Mine now") (initial 0)
           2%nat editor2_article); reflexivity.
Defined.

(** ** Reading *)

(** X17: reading is not scoped.  A token of any of the three roles gets
    every post, in table order, whoever wrote it; the user list, with ids,
    names, roles and e-mail addresses, goes to an ADMIN or an EDITOR and to
    nobody else; neither route changes the tables. *)
Theorem reads_are_unscoped now rq db user :
  sent_by user rq →
  (Identity.role user ∈ ROLES →
   app GET_posts now rq db =
     Result db (send (PostList (listed_post <$> DB.posts db))) []) ∧
  (status (res (app GET_posts now rq db)) = 200 → Identity.role user ∈ ROLES) ∧
  (Identity.role user = "ADMIN" ∨ Identity.role user = "EDITOR" →
   app GET_admin_users now rq db =
     Result db (send (UserList (listed_user <$> DB.users db))) []) ∧
  (status (res (app GET_admin_users now rq db)) = 200 →
   Identity.role user = "ADMIN" ∨ Identity.role user = "EDITOR") ∧
  tables (app GET_posts now rq db) = db ∧
  tables (app GET_admin_users now rq db) = db.
Proof.
  intros Hauth. unfold app. split_and!.
  - intros Hrole.
    by rewrite (guarded_allowed _ _ _ _ _ _ user Hauth) by (by apply allows_posts_read).
  - rewrite (guarded_Bearer _ _ _ _ _ _ _ Hauth).
    destruct (authorize "posts" "read" false now rq user) as [flag|r out] eqn:E.
    + intros _. apply authorize_Next in E as [[_ Ha]|(_ & [=] & _)].
      by apply allows_posts_read.
    + apply authorize_Respond in E as [E _]. cbn [reply res]. rewrite E. done.
  - intros Hrole.
    by rewrite (guarded_allowed _ _ _ _ _ _ user Hauth) by (by apply allows_users_read).
  - rewrite (guarded_Bearer _ _ _ _ _ _ _ Hauth).
    destruct (authorize "users" "read" false now rq user) as [flag|r out] eqn:E.
    + intros _. apply authorize_Next in E as [[_ Ha]|(_ & [=] & _)].
      by apply allows_users_read.
    + apply authorize_Respond in E as [E _]. cbn [reply res]. rewrite E. done.
  - by apply guarded_tables.
  - by apply guarded_tables.
Qed.

(** editor1 reads the posts and the user list. *)
Lemma reads_are_unscoped_editor1 :
  (Identity.role editor1 ∈ ROLES →
   app GET_posts 1000 editor1_reads (initial 0) =
     Result (initial 0) (send (PostList (listed_post <$> DB.posts (initial 0)))) []) ∧
  (status (res (app GET_posts 1000 editor1_reads (initial 0))) = 200 →
   Identity.role editor1 ∈ ROLES) ∧
  (Identity.role editor1 = "ADMIN" ∨ Identity.role editor1 = "EDITOR" →
   app GET_admin_users 1000 editor1_reads (initial 0) =
     Result (initial 0) (send (UserList (listed_user <$> DB.users (initial 0)))) []) ∧
  (status (res (app GET_admin_users 1000 editor1_reads (initial 0))) = 200 →
   Identity.role editor1 = "ADMIN" ∨ Identity.role editor1 = "EDITOR") ∧
  tables (app GET_posts 1000 editor1_reads (initial 0)) = initial 0 ∧
  tables (app GET_admin_users 1000 editor1_reads (initial 0)) = initial 0.
Proof.
  apply (reads_are_unscoped 1000 editor1_reads (initial 0) editor1). reflexivity.
Defined.

(** ** Tokens outlive role changes *)

Lemma post_handlers_ignore_users r now rq db db' :
  post_route r = true →
  DB.posts db = DB.posts db' → DB.nextPostId db = DB.nextPostId db' →
  res (app r now rq db) = res (app r now rq db') ∧
  console (app r now rq db) = console (app r now rq db') ∧
  DB.posts (tables (app r now rq db)) = DB.posts (tables (app r now rq db')).
Proof.
  intros Hr Hposts Hnext.
  destruct r; try discriminate Hr; unfold app, guarded;
    (destruct (authMiddleware rq) as [user|]; [|done]);
    match goal with
    | |- context [authorize ?a ?b ?c now rq user] =>
        destruct (authorize a b c now rq user) as [flag|]; [|done]
    end.
  - unfold post_posts. cbn. by rewrite Hposts, Hnext.
  - unfold get_posts. cbn. by rewrite Hposts.
  - unfold put_posts_id. rewrite <- Hposts.
    destruct (findIndex _ (DB.posts db)) as [i|]; [|by cbn].
    destruct (DB.posts db !! i) as [post|]; [|by cbn].
    destruct (if flag then _ else _); cbn; by rewrite <- ?Hposts.
  - unfold delete_posts_id. rewrite <- Hposts.
    destruct (findIndex _ (DB.posts db)) as [i|]; [|by cbn].
    destruct (DB.posts db !! i) as [post|]; [|by cbn].
    destruct (flag && _); cbn; by rewrite <- ?Hposts.
Qed.

Lemma role_change_keeps_posts now rq db :
  DB.posts (tables (app PUT_admin_users_id_role now rq db)) = DB.posts db ∧
  DB.nextPostId (tables (app PUT_admin_users_id_role now rq db)) = DB.nextPostId db.
Proof.
  unfold app.
  apply (guarded_tables
           (λ db', DB.posts db' = DB.posts db ∧ DB.nextPostId db' = DB.nextPostId db));
    [done|].
  intros user flag. unfold put_admin_users_id_role.
  destruct (includes ROLES (Body.newRole (Request.body rq))); cbn [negb]; [|done].
  destruct (findIndex _ (DB.users db)) as [i|]; [|done].
  by destruct (DB.users db !! i).
Qed.

(** X18: the routes on posts decide from the token alone, never from the
    user table: whatever role change is served in between, a request on
    posts gets the same answer and the same console lines and leaves the same
    posts as it would have without it.  A token keeps the role it was issued
    with. *)
Theorem tokens_outlive_role_changes r now rq db now' rq' :
  post_route r = true →
  let db1 := tables (app PUT_admin_users_id_role now' rq' db) in
  res (app r now rq db1) = res (app r now rq db) ∧
  console (app r now rq db1) = console (app r now rq db) ∧
  DB.posts (tables (app r now rq db1)) = DB.posts (tables (app r now rq db)).
Proof.
  intros Hr db1. subst db1.
  destruct (role_change_keeps_posts now' rq' db) as [Hposts Hnext].
  by apply post_handlers_ignore_users.
Qed.

(** editor1, turned into a VIEWER, still retitles its draft with its old token. *)
Lemma tokens_outlive_role_changes_seeded :
  let rq := retitle editor1 2 "Draft 2" in
  let db1 := tables (app PUT_admin_users_id_role 1000 demote_editor1 (initial 0)) in
  res (app PUT_posts_id 2000 rq db1) = res (app PUT_posts_id 2000 rq (initial 0)) ∧
  console (app PUT_posts_id 2000 rq db1) = console (app PUT_posts_id 2000 rq (initial 0)) ∧
  DB.posts (tables (app PUT_posts_id 2000 rq db1)) =
    DB.posts (tables (app PUT_posts_id 2000 rq (initial 0))).
Proof.
  apply (tokens_outlive_role_changes PUT_posts_id 2000 (retitle editor1 2 "Draft 2")
           (initial 0) 1000 demote_editor1).
  reflexivity.
Defined.

Example demoted_editor_still_edits :
  let db1 := tables (app PUT_admin_users_id_role 1000 demote_editor1 (initial 0)) in
  User.role <$> DB.users db1 !! 1%nat = Some "VIEWER" ∧
  status (res (app PUT_posts_id 2000 (retitle editor1 2 "Draft 2") db1)) = 200.
Proof. vm_compute. done. Qed.

(** ** Stored users *)

Lemma set_role_same u : User.set_role (User.role u) u = u.
Proof. by destruct u. Qed.

Lemma app_user_kept r now rq db i u :
  DB.users db !! i = Some u → user_kept r rq i u (tables (app r now rq db)).
Proof.
  intros Hu.
  assert (∀ db', DB.users db' = DB.users db → user_kept r rq i u db') as Hsame.
  { intros db' E. exists u. rewrite E, set_role_same. auto. }
  destruct r; unfold app; try apply guarded_tables; try (by apply Hsame);
    try (intros user flag).
  - unfold post_auth_register.
    destruct (Body.username (Request.body rq)) as [username|]; [|by apply Hsame].
    destruct (Body.password (Request.body rq)) as [password|]; [|by apply Hsame].
    destruct (String.eqb username "" || String.eqb password ""); [by apply Hsame|].
    destruct (existsb _ (DB.users db)); [by apply Hsame|].
    exists u. cbn [tables DB.users]. rewrite set_role_same.
    split; [|auto]. apply lookup_app_l_Some. done.
  - by apply Hsame.
  - by apply Hsame.
  - apply Hsame, put_posts_id_users.
  - apply Hsame, delete_posts_id_users.
  - by apply Hsame.
  - unfold put_admin_users_id_role.
    destruct (includes ROLES (Body.newRole (Request.body rq))) eqn:Hinc;
      cbn [negb]; [|by apply Hsame].
    apply includes_ROLES in Hinc as (s & Hnew & Hs). rewrite Hnew.
    destruct (findIndex _ (DB.users db)) as [j|]; [|by apply Hsame].
    destruct (DB.users db !! j) as [v|] eqn:Hv; [|by apply Hsame].
    cbn [tables DB.with_users DB.users string_of].
    destruct (decide (j = i)) as [->|Hne].
    + rewrite Hu in Hv. injection Hv as <-.
      exists (User.set_role s u). split; [|by auto].
      apply list_lookup_insert_eq. by eapply lookup_lt_Some.
    + exists u. rewrite set_role_same. split; [|by auto].
      rewrite <- Hu. by apply list_lookup_insert_ne.
Qed.

(** X19: no request removes, moves or rewrites a stored user: whatever
    requests are served, the user at an index is still at that index with the
    same id, name, password hash and e-mail address, and its role is the one
    it had or one that a role change among the requests asked for. *)
Theorem users_are_kept arrivals db i u :
  DB.users db !! i = Some u →
  ∃ u', DB.users (serve arrivals db) !! i = Some u' ∧
        u' = User.set_role (User.role u') u ∧
        (User.role u' = User.role u ∨
         ∃ a, a ∈ arrivals ∧ target a = PUT_admin_users_id_role ∧
              Body.newRole (Request.body (request a)) = VStr (User.role u')).
Proof.
  revert db u. induction arrivals as [|a rest IH]; intros db u Hu; simpl.
  - exists u. rewrite set_role_same. auto.
  - destruct (app_user_kept (target a) (instant a) (request a) db i u Hu)
      as (v & Hv & Hkept & Hrole).
    destruct (IH _ _ Hv) as (u' & Hu' & Hkept' & Hrole').
    exists u'. split; [done|]. split.
    { rewrite Hkept', Hkept. done. }
    destruct Hrole' as [E|(b & Hb & Ht & Hn)].
    + destruct Hrole as [E'|[Ht Hn]].
      * left. congruence.
      * right. exists a. rewrite E. split; [apply list_elem_of_here|done].
    + right. exists b. split; [by apply list_elem_of_further|done].
Qed.

(** editor1 across a role change and somebody's registration. *)
Lemma users_are_kept_seeded :
  let u := User.mk 2 "editor1" (hashPassword "editor123") "EDITOR"
             (VStr "editor1@example.com") in
  ∃ u', DB.users (serve demote_then_register (initial 0)) !! 1%nat = Some u' ∧
        u' = User.set_role (User.role u') u ∧
        (User.role u' = User.role u ∨
         ∃ a, a ∈ demote_then_register ∧ target a = PUT_admin_users_id_role ∧
              Body.newRole (Request.body (request a)) = VStr (User.role u')).
Proof.
  apply (users_are_kept demote_then_register (initial 0) 1%nat). reflexivity.
Defined.

(** ** What a denial leaves in the log *)

(** X20: whenever [authorize] turns a request down it answers 403 and says
    so on the console, for every role and resource that do not name an
    inherited member.  For a role of the closed set it prints two lines, the
    second a structured record with the caller's id, name and role, the
    permission that was missing, the instant, and the request id of the
    header, or N/A when the header is absent or empty; for any other role it
    answers that the role configuration is invalid and prints one warning
    and no record. *)
Theorem denial_is_logged resource action isOwnerCheck now rq user r out :
  resource ∉ INHERITED →
  Identity.role user ∉ INHERITED →
  authorize resource action isOwnerCheck now rq user = Respond r out →
  status r = 403 ∧
  (Identity.role user ∈ ROLES →
   r = Response 403
         (ErrorObj ("Forbidden. Role '" +:+ Identity.role user +:+ "' cannot perform '"
                    +:+ action +:+ "' on '" +:+ resource +:+ "'.")) ∧
   ∃ l, out =
     [Log l;
      Error (Denial "error" "AuthorizationDenied" (Identity.id user)
               (Identity.username user) (Identity.role user)
               (resource +:+ ":" +:+ action) now (correlation rq))]) ∧
  (Identity.role user ∉ ROLES →
   r = Response 403 (ErrorObj "Forbidden. Invalid Role Configuration.") ∧
   ∃ w, out = [Warn w]).
Proof.
  intros _ _ E. split; [by eapply authorize_Respond|].
  revert E. unfold authorize, correlation, missing.
  destruct (PERMISSIONS !! Identity.role user) as [p|] eqn:Hp.
  - apply PERMISSIONS_Some in Hp as [Hrole _].
    destruct (grants p resource action), isOwnerCheck,
      (grants p ("self_" +:+ resource) action); try discriminate.
    all: intros [= <- <-]; (split; [intros _|done]); (split; [done|]).
    all: eexists; repeat f_equal; by destruct (Request.x_request_id rq).
  - apply PERMISSIONS_None in Hp. intros [= <- <-]. split; [done|].
    intros _. split; [done|]. by eexists.
Qed.

(** The viewer asks to delete a post, with a request id; a token with the
    role SUPERUSER asks to read the posts. *)
Lemma denial_is_logged_viewer :
  authorize "posts" "delete" true 1000 viewer_deletes viewer =
    Respond
      (Response 403
         (ErrorObj "Forbidden. Role 'VIEWER' cannot perform 'delete' on 'posts'."))
      [Log "Authorization Denial (403): User viewer (Role: VIEWER) failed check for posts:delete";
       Error (Denial "error" "AuthorizationDenied" 4 "viewer" "VIEWER" "posts:delete"
                1000 "req-7")] ∧
  (∃ l, [Log "Authorization Denial (403): User viewer (Role: VIEWER) failed check for posts:delete";
         Error (Denial "error" "AuthorizationDenied" 4 "viewer" "VIEWER" "posts:delete"
                  1000 "req-7")] =
        [Log l;
         Error (Denial "error" "AuthorizationDenied" (Identity.id viewer)
                  (Identity.username viewer) (Identity.role viewer)
                  ("posts" +:+ ":" +:+ "delete") 1000 (correlation viewer_deletes))]) ∧
  ∃ w, [Warn "Attempted access by user 9 with invalid role: SUPERUSER"] = [Warn w].
Proof.
  assert ("posts" ∉ INHERITED) as Hposts.
  { unfold INHERITED. rewrite !not_elem_of_cons. split_and!; try done.
    apply not_elem_of_nil. }
  assert (∀ role, role ∈ ["VIEWER"; "SUPERUSER"] → role ∉ INHERITED) as Hrole.
  { intros role Hin. unfold INHERITED. rewrite !not_elem_of_cons.
    rewrite !elem_of_cons, elem_of_nil in Hin.
    destruct Hin as [->|[->|[]]]; split_and!; try done; apply not_elem_of_nil. }
  split; [reflexivity|]. split.
  - eapply (denial_is_logged "posts" "delete" true 1000 viewer_deletes viewer).
    + exact Hposts.
    + apply Hrole. apply list_elem_of_here.
    + reflexivity.
    + unfold ROLES. cbn [Identity.role viewer]. rewrite !elem_of_cons. auto.
  - eapply (denial_is_logged "posts" "read" false 1000 viewer_deletes
              (Identity.mk 9 "SUPERUSER" "mallory")).
    + exact Hposts.
    + apply Hrole. apply list_elem_of_further, list_elem_of_here.
    + reflexivity.
    + unfold ROLES. cbn [Identity.role]. rewrite !not_elem_of_cons.
      split_and!; try done. apply not_elem_of_nil.
Defined.

(** ** Ids that do not parse *)

(** X21: an id that [parseInt] turns into [NaN] names nothing.  Sent by an
    ADMIN, an update or a delete under such an id is answered 404, and so is
    a role change to a role of the closed set, while a role change to any
    other role is still answered 400; none of them touches the tables. *)
Theorem unparsable_id_finds_nothing now rq db user :
  sent_by user rq → Identity.role user = "ADMIN" →
  Request.params_id rq = None →
  app PUT_posts_id now rq db = Result db (Response 404 (Text "Post not found.")) [] ∧
  app DELETE_posts_id now rq db = Result db (Response 404 (Text "Post not found.")) [] ∧
  app PUT_admin_users_id_role now rq db =
    Result db
      (if includes ROLES (Body.newRole (Request.body rq))
       then Response 404 (Text "User not found.")
       else Response 400 (Text "Invalid role provided.")) [].
Proof.
  intros Hauth Hrole Hnan.
  assert (∀ {A} (f : A → Z) (l : list A),
            findIndex (λ x, strict_eq (f x) None) l = None) as Hnone.
  { intros A f l. apply findIndex_None. done. }
  destruct (allows_posts_change (Identity.role user) "update" (or_introl eq_refl))
    as [Hu _].
  destruct (allows_posts_change (Identity.role user) "delete" (or_intror eq_refl))
    as [Hd _].
  unfold app. split_and!.
  - rewrite (guarded_allowed _ _ _ _ _ _ user Hauth) by (by apply Hu).
    apply put_posts_id_missing. unfold find_post. rewrite Hnan. apply Hnone.
  - rewrite (guarded_allowed _ _ _ _ _ _ user Hauth) by (by apply Hd).
    apply delete_posts_id_missing. unfold find_post. rewrite Hnan. apply Hnone.
  - rewrite (guarded_allowed _ _ _ _ _ _ user Hauth) by (by apply allows_manage_roles).
    unfold put_admin_users_id_role. rewrite Hnan, Hnone.
    by destruct (includes ROLES (Body.newRole (Request.body rq))).
Qed.

(** admin sends requests whose id is not a number. *)
Lemma unparsable_id_finds_nothing_seeded :
  app PUT_posts_id 1000 admin_names_no_number (initial 0) =
    Result (initial 0) (Response 404 (Text "Post not found.")) [] ∧
  app DELETE_posts_id 1000 admin_names_no_number (initial 0) =
    Result (initial 0) (Response 404 (Text "Post not found.")) [] ∧
  app PUT_admin_users_id_role 1000 admin_names_no_number (initial 0) =
    Result (initial 0)
      (if includes ROLES (Body.newRole (Request.body admin_names_no_number))
       then Response 404 (Text "User not found.")
       else Response 400 (Text "Invalid role provided.")) [].
Proof.
  apply (unparsable_id_finds_nothing 1000 admin_names_no_number (initial 0) admin);
    reflexivity.
Defined.
